(** * squrl abuse monitoring: a shallow embedding of the Lambda templates

    The development follows the Python sources under
    [terraform/modules/monitoring/templates]:

    - [realtime_abuse_detector.py]: the scoring function, the windowed
      aggregation store written by [update_tracking_data] and the threshold
      evaluator [check_abuse_thresholds];
    - [ip_reputation_checker.py]: the three reputation checkers and their
      merge in [perform_reputation_lookup];
    - [abuse_response_handler.py]: the planner [determine_response_actions]
      and the executor [execute_response_actions].

    Python integers are [Z].  A Python [str] is a [string]: a sequence of
    characters with code points below 256.  JSON values that reach the
    dynamically typed code are [pyval]s, dictionaries are [gmap]s, DynamoDB
    string sets are [gset]s. *)

From Stdlib Require Import ZArith Ascii String List Permutation.
From stdpp Require Import base option gmap strings list.

Local Open Scope string_scope.
Local Open Scope list_scope.
Local Open Scope Z_scope.

(** ** Python values, exceptions and string methods *)

Module Py.

Inductive pyval : Type :=
| VNone
| VBool (b : bool)
| VInt (n : Z)
| VStr (s : string)
| VList (l : list string).

Inductive exn : Type :=
| AttributeError
| TypeError
| ValueError
| ClientError.

Inductive result (A : Type) : Type :=
| Ok (a : A)
| Raise (e : exn).

Arguments Ok {A} a.
Arguments Raise {A} e.

#[export] Instance result_ret : MRet result := fun _ a => Ok a.

#[export] Instance result_bind : MBind result := fun _ _ f m =>
  match m with
  | Ok a => f a
  | Raise e => Raise e
  end.

#[export] Instance pyval_eq_dec : EqDecision pyval.
Proof. solve_decision. Defined.

(** [bool(v)]: the truth value of a Python object. *)
Definition truthy (v : pyval) : bool :=
  match v with
  | VNone => false
  | VBool b => b
  | VInt n => negb (n =? 0)
  | VStr s => negb (String.eqb s "")
  | VList l => match l with [] => false | _ => true end
  end.

(** [needle in s] on strings. *)
Fixpoint contains (needle s : string) : bool :=
  String.prefix needle s ||
  match s with
  | EmptyString => false
  | String _ t => contains needle t
  end.

(** [c.lower()] on one character with code point below 256: the ASCII
    capitals and the Latin-1 capitals U+00C0..U+00DE (U+00D7 is the
    multiplication sign) move up by 32. *)
Definition lower_char (c : ascii) : ascii :=
  let n := N_of_ascii c in
  if ((65 <=? n) && (n <=? 90) ||
      (192 <=? n) && (n <=? 222) && negb (n =? 215))%N
  then ascii_of_N (n + 32) else c.

Fixpoint lower (s : string) : string :=
  match s with
  | EmptyString => EmptyString
  | String c t => String (lower_char c) (lower t)
  end.

(** [len(s)]. *)
Definition len (s : string) : Z := Z.of_nat (String.length s).

(** [v.startswith(p)]: only a [str] has the method. *)
Definition startswith (v : pyval) (p : string) : result bool :=
  match v with
  | VStr s => Ok (String.prefix p s)
  | _ => Raise AttributeError
  end.

(** The receiver of a [str] method such as [v.lower()]. *)
Definition str_receiver (v : pyval) : result string :=
  match v with
  | VStr s => Ok s
  | _ => Raise AttributeError
  end.

(** [v == s] for a string literal [s]: false on every other type. *)
Definition eq_str (v : pyval) (s : string) : bool :=
  match v with
  | VStr t => String.eqb t s
  | _ => false
  end.



End Py.

Import Py.

(** ** realtime_abuse_detector.py: the scoring function *)

Module Scoring.

Definition suspicious_agents : list string :=
  ["bot"; "crawler"; "spider"; "scraper"; "scanner"].

(** The [for agent in suspicious_agents] loop: the first keyword found in
    the lowered user agent adds 4 and leaves the loop. *)
Fixpoint scan_agents (agents : list string) (user_agent_lower : string) (score : Z) : Z :=
  match agents with
  | [] => score
  | agent :: rest =>
      if contains agent user_agent_lower then score + 4
      else scan_agents rest user_agent_lower score
  end.

Definition calculate_abuse_score (source_ip status user_agent method resource : pyval) : result Z :=
  let score := 0 in
  client_error ← startswith status "4";
  let score := if client_error : bool then score + 2 else score in
  let score := if eq_str status "404" then score + 3 else score in
  let score := if eq_str status "429" then score + 5 else score in
  ua ← str_receiver user_agent;
  let user_agent_lower := lower ua in
  let score := scan_agents suspicious_agents user_agent_lower score in
  let score :=
    if negb (truthy user_agent) || (len ua <? 10) then score + 3 else score in
  let score :=
    if eq_str method "POST" && eq_str resource "/create" then score + 1 else score in
  admin ← startswith resource "/admin";
  hidden ← (if admin : bool then Ok true else startswith resource "/.");
  let score := if hidden : bool then score + 5 else score in
  Ok (Z.min score 100).



(** The rules of the scoring engine as the specification words them: five
    independent additive terms, the sum clamped to the interval 0..100. *)
Definition spec_status_points (status : string) : Z :=
  (if String.prefix "4" status then 2 else 0) +
  (if String.eqb status "404" then 3 else 0) +
  (if String.eqb status "429" then 5 else 0).

Definition spec_keyword_points (user_agent : string) : Z :=
  if existsb (fun k => contains k (lower user_agent)) suspicious_agents then 4 else 0.

Definition spec_short_agent_points (user_agent : string) : Z :=
  if String.eqb user_agent "" || (len user_agent <? 10) then 3 else 0.

Definition spec_create_points (method resource : string) : Z :=
  if String.eqb method "POST" && String.eqb resource "/create" then 1 else 0.

Definition spec_path_points (resource : string) : Z :=
  if String.prefix "/admin" resource || String.prefix "/." resource then 5 else 0.

Definition spec_score (status user_agent method resource : string) : Z :=
  Z.max 0 (Z.min 100
    (spec_status_points status + spec_keyword_points user_agent +
     spec_short_agent_points user_agent + spec_create_points method resource +
     spec_path_points resource)).



(** *** Properties of the scoring function *)

Lemma scan_agents_existsb (agents : list string) (ua_lower : string) (score : Z) :
  scan_agents agents ua_lower score =
  score + (if existsb (fun k => contains k ua_lower) agents then 4 else 0).
Proof.
  induction agents as [|agent rest IH]; simpl.
  - lia.
  - destruct (contains agent ua_lower); simpl; [reflexivity | apply IH].
Qed.

Lemma truthy_str (s : string) : truthy (VStr s) = negb (String.eqb s "").
Proof. reflexivity. Qed.

Ltac split_ifs :=
  repeat match goal with
         | |- context [if ?b then _ else _] => destruct b eqn:?; simpl
         end.

Lemma spec_points_nonneg (status user_agent method resource : string) :
  0 <= spec_status_points status + spec_keyword_points user_agent +
       spec_short_agent_points user_agent + spec_create_points method resource +
       spec_path_points resource.
Proof.
  unfold spec_status_points, spec_keyword_points, spec_short_agent_points,
    spec_create_points, spec_path_points.
  split_ifs; lia.
Qed.

Lemma calculate_abuse_score_spec (source_ip : pyval) (status user_agent method resource : string) :
  calculate_abuse_score source_ip (VStr status) (VStr user_agent) (VStr method) (VStr resource)
  = Ok (spec_score status user_agent method resource).
Proof.
  pose proof (spec_points_nonneg status user_agent method resource) as Hpos.
  unfold spec_score.
  rewrite Z.max_r by (apply Z.min_glb; lia).
  rewrite Z.min_comm.
  revert Hpos.
  unfold calculate_abuse_score, spec_status_points, spec_keyword_points,
    spec_short_agent_points, spec_create_points, spec_path_points.
  cbn [startswith str_receiver eq_str mbind result_bind].
  rewrite scan_agents_existsb, truthy_str, negb_involutive.
  intros _.
  destruct (String.prefix "4" status), (String.eqb status "404"),
    (String.eqb status "429"),
    (existsb (fun k => contains k (lower user_agent)) suspicious_agents),
    (String.eqb user_agent "" || (len user_agent <? 10)),
    (String.eqb method "POST" && String.eqb resource "/create"),
    (String.prefix "/admin" resource); cbn;
    try (destruct (String.prefix "/." resource); cbn);
    f_equal.
Qed.

(** No single event scores above 19: the three status rules give at most 7
    (a status is not both 404 and 429), the two user-agent rules at most 7,
    and [/create] starts neither with [/admin] nor with [/.]. *)
Lemma spec_score_le_19 (status user_agent method resource : string) :
  spec_score status user_agent method resource <= 19.
Proof.
  pose proof (spec_points_nonneg status user_agent method resource) as Hpos.
  unfold spec_score.
  assert (spec_status_points status <= 7) as Hs.
  { unfold spec_status_points.
    destruct (String.eqb_spec status "404") as [->|]; [vm_compute; discriminate|].
    split_ifs; lia. }
  assert (spec_keyword_points user_agent + spec_short_agent_points user_agent <= 7) as Hu.
  { unfold spec_keyword_points, spec_short_agent_points. split_ifs; lia. }
  assert (spec_create_points method resource + spec_path_points resource <= 5) as Hr.
  { unfold spec_create_points, spec_path_points.
    destruct (String.eqb_spec resource "/create") as [->|].
    - rewrite andb_true_r. cbn. split_ifs; lia.
    - rewrite andb_false_r. split_ifs; lia. }
  lia.
Qed.

(** Claim C6 (as the code has it).  The event with status 404, an empty user
    agent, method GET and resource /admin/config scores 13: the status
    starts with 4 (2 points) and is 404 (3 more), the user agent is empty
    (3) and the resource starts with /admin (5). *)
Theorem admin_probe_scores_13 :
  calculate_abuse_score (VStr "203.0.113.5") (VStr "404") (VStr "") (VStr "GET")
    (VStr "/admin/config") = Ok 13
  /\ spec_status_points "404" = 5
  /\ spec_short_agent_points "" = 3
  /\ spec_path_points "/admin/config" = 5
  /\ spec_keyword_points "" = 0
  /\ spec_create_points "GET" "/admin/config" = 0.
Proof. repeat split; vm_compute; reflexivity. Qed.

(** Claim C6 as stated fails: the score of that event is not 11. *)
Lemma admin_probe_not_11 :
  calculate_abuse_score (VStr "203.0.113.5") (VStr "404") (VStr "") (VStr "GET")
    (VStr "/admin/config") <> Ok 11.
Proof. vm_compute. discriminate. Qed.




End Scoring.

(** ** realtime_abuse_detector.py: the windowed aggregation store *)

Module Detector.

(** A [datetime] value with its fields; [tzinfo] is the UTC offset in
    minutes of an aware value and [None] for a naive one. *)
Record datetime : Type := DateTime {
  year : Z;
  month : Z;
  day : Z;
  hour : Z;
  minute : Z;
  second : Z;
  microsecond : Z;
  tzinfo : option Z
}.

#[export] Instance datetime_eq_dec : EqDecision datetime.
Proof. solve_decision. Defined.

Definition datetime_fields (dt : datetime) : Z * Z * Z * Z * Z * Z * Z * option Z :=
  (year dt, month dt, day dt, hour dt, minute dt, second dt, microsecond dt, tzinfo dt).

Definition datetime_of_fields (t : Z * Z * Z * Z * Z * Z * Z * option Z) : datetime :=
  let '(y, mo, d, h, mi, s, us, tz) := t in DateTime y mo d h mi s us tz.

#[export] Instance datetime_countable : Countable datetime.
Proof.
  apply (inj_countable' datetime_fields datetime_of_fields).
  intros []. reflexivity.
Defined.

(** A timestamp string, represented by what
    [datetime.fromisoformat(timestamp.replace('Z', '+00:00'))] makes of it:
    a value, or an exception for a string that is not in ISO format. *)
Inductive timestamp : Type :=
| Iso (dt : datetime)
| Unparsable (raw : string).

(** One reading of the system clock: [datetime.utcnow()] and the POSIX
    seconds [int(datetime.utcnow().timestamp())] of the same instant. *)
Record clock : Type := Clock {
  utcnow : datetime;
  epoch : Z
}.

(** The window label [f"{window_dt.isoformat()}_{window_minutes}min"], kept
    as the pair of its two parts. *)
Definition window_key : Type := datetime * Z.

(** [dt.replace(minute=(dt.minute // w) * w, second=0, microsecond=0)]. *)
Definition round_down (dt : datetime) (window_minutes : Z) : datetime :=
  let minutes := (minute dt / window_minutes) * window_minutes in
  DateTime (year dt) (month dt) (day dt) (hour dt) minutes 0 0 (tzinfo dt).

Definition get_time_window (now : clock) (ts : timestamp) (window_minutes : Z) : window_key :=
  match ts with
  | Iso dt => (round_down dt window_minutes, window_minutes)
  | Unparsable _ => (round_down (utcnow now) window_minutes, window_minutes)
  end.

Definition get_abuse_score_range (score : Z) : string :=
  if score <? 10 then "low"
  else if score <? 30 then "medium"
  else if score <? 60 then "high"
  else "critical".

(** An item of the tracking table.  The five attributes of the [SET] clause
    exist in every item the update path writes; a string-set attribute that
    is absent is the empty set (DynamoDB stores no empty set). *)
Record item : Type := Item {
  request_count : Z;
  abuse_score : Z;
  last_seen : timestamp;
  ttl : Z;
  abuse_score_range : string;
  status_codes : gset string;
  methods : gset string;
  resources : gset string
}.

(** The table, keyed by [ip_address] and [time_window]. *)
Abbreviation table := (gmap (string * window_key) item).

(** The two update expressions of [update_tracking_data], as functions from
    the item found under the key (if any) to the item the store puts there
    when it accepts the request. *)
Definition short_window_expression (old : option item)
    (score : Z) (ts : timestamp) (ttl_value : Z) (score_range status : string) : item :=
  {| request_count := from_option request_count 0 old + 1;
     abuse_score := from_option abuse_score 0 old + score;
     last_seen := ts;
     ttl := ttl_value;
     abuse_score_range := score_range;
     status_codes := from_option status_codes ∅ old ∪ {[status]};
     methods := from_option methods ∅ old;
     resources := from_option resources ∅ old |}.

Definition long_window_expression (old : option item)
    (score : Z) (ts : timestamp) (ttl_value : Z) (score_range method resource : string) : item :=
  {| request_count := from_option request_count 0 old + 1;
     abuse_score := from_option abuse_score 0 old + score;
     last_seen := ts;
     ttl := ttl_value;
     abuse_score_range := score_range;
     status_codes := from_option status_codes ∅ old;
     methods := from_option methods ∅ old ∪ {[method]};
     resources := from_option resources ∅ old ∪ {[resource]} |}.

(** One [update_item] request. *)
Inductive write : Type :=
| ShortWrite (key : string * window_key) (score : Z) (ts : timestamp) (ttl_value : Z)
    (score_range status : string)
| LongWrite (key : string * window_key) (score : Z) (ts : timestamp) (ttl_value : Z)
    (score_range method resource : string).

Definition write_key (w : write) : string * window_key :=
  match w with
  | ShortWrite key _ _ _ _ _ => key
  | LongWrite key _ _ _ _ _ _ => key
  end.

Definition written_item (old : option item) (w : write) : item :=
  match w with
  | ShortWrite _ score ts ttl_value score_range status =>
      short_window_expression old score ts ttl_value score_range status
  | LongWrite _ score ts ttl_value score_range method resource =>
      long_window_expression old score ts ttl_value score_range method resource
  end.

(** The attribute names spelled out in the update expression of a request.
    Neither request passes [ExpressionAttributeNames], so every name stands
    in the expression as it is written. *)
Definition expression_names (w : write) : list string :=
  match w with
  | ShortWrite _ _ _ _ _ _ =>
      ["request_count"; "abuse_score"; "last_seen"; "ttl"; "abuse_score_range";
       "status_codes"]
  | LongWrite _ _ _ _ _ _ _ =>
      ["request_count"; "abuse_score"; "last_seen"; "ttl"; "abuse_score_range";
       "methods"; "resources"]
  end.

(** Reserved words of the expression language of DynamoDB (a part of its
    list); the store compares them without regard to letter case. *)
Definition dynamodb_reserved_words : list string :=
  ["count"; "name"; "range"; "status"; "timestamp"; "ttl"; "value"].

Definition dynamodb_reserved (name : string) : bool :=
  existsb (String.eqb (lower name)) dynamodb_reserved_words.

(** The request of the first [update_item] call of [update_tracking_data]
    and the request of the second. *)
Definition short_request (now_window now_ttl : clock) (source_ip : string)
    (abuse_score : Z) (ts : timestamp) (status : string) : write :=
  ShortWrite (source_ip, get_time_window now_window ts 5) abuse_score ts
    (epoch now_ttl + 24 * 3600) (get_abuse_score_range abuse_score) status.

Definition long_request (now_window now_ttl : clock) (source_ip : string)
    (abuse_score : Z) (ts : timestamp) (method resource : string) : write :=
  LongWrite (source_ip, get_time_window now_window ts 60) abuse_score ts
    (epoch now_ttl + 24 * 3600) (get_abuse_score_range abuse_score) method resource.

Section Store.

(** The reserved words of the store.  A request whose expression spells out
    a reserved word is rejected with a [ClientError] and writes nothing. *)
Variable reserved_word : string -> bool.

Definition update_item (tbl : table) (w : write) : result table :=
  if existsb reserved_word (expression_names w) then Raise ClientError
  else Ok (<[write_key w := written_item (tbl !! write_key w) w]> tbl).

(** [update_tracking_data].  The clock is read three times: by the fallback
    of the first [get_time_window], for the expiry, and by the fallback of the
    second [get_time_window].  An exception of either [update_item] call
    leaves the [try] block; the [except] logs it and the function returns. *)
Definition update_tracking_data (now_short now_ttl now_long : clock) (tbl : table)
    (source_ip : string) (abuse_score : Z) (ts : timestamp)
    (status method resource : string) : table :=
  match update_item tbl (short_request now_short now_ttl source_ip abuse_score ts status) with
  | Raise _ => tbl
  | Ok tbl =>
      match update_item tbl
              (long_request now_long now_ttl source_ip abuse_score ts method resource) with
      | Raise _ => tbl
      | Ok tbl => tbl
      end
  end.

End Store.

Section Thresholds.

(** Configuration read from the environment. *)
Variable ABUSE_THRESHOLD_5MIN : Z.
Variable ABUSE_THRESHOLD_HOUR : Z.

(** [check_abuse_thresholds]: the window labels are those of the current
    time, [get_time_window(now.isoformat(), ...)]. *)
Definition check_abuse_thresholds (now : clock) (tbl : table) (source_ip : string) : bool :=
  let five_min_window := get_time_window now (Iso (utcnow now)) 5 in
  let short_alert :=
    match tbl !! (source_ip, five_min_window) with
    | Some it =>
        (request_count it >? ABUSE_THRESHOLD_5MIN) || (abuse_score it >? 50)
    | None => false
    end in
  if short_alert then true
  else
    let hour_window := get_time_window now (Iso (utcnow now)) 60 in
    let long_alert :=
      match tbl !! (source_ip, hour_window) with
      | Some it =>
          (request_count it >? ABUSE_THRESHOLD_HOUR) || (abuse_score it >? 100)
      | None => false
      end in
    if long_alert then true else false.

End Thresholds.

(** One call of [update_tracking_data] for a source IP, with its three clock
    readings. *)
Record call : Type := Call {
  call_short_clock : clock;
  call_ttl_clock : clock;
  call_long_clock : clock;
  call_score : Z;
  call_timestamp : timestamp;
  call_status : string;
  call_method : string;
  call_resource : string
}.

Definition run_calls (reserved_word : string -> bool) (source_ip : string)
    (cs : list call) (tbl : table) : table :=
  fold_left (fun t c =>
    update_tracking_data reserved_word (call_short_clock c) (call_ttl_clock c)
      (call_long_clock c) t source_ip (call_score c) (call_timestamp c)
      (call_status c) (call_method c) (call_resource c)) cs tbl.

(** *** Concrete runs used below *)

Definition noon_0107 : datetime := DateTime 2024 1 1 12 1 7 0 None.
Definition noon_0733 : datetime := DateTime 2024 1 1 12 7 33 0 None.

Definition clock_0107 : clock := Clock noon_0107 1704110467.
Definition clock_0733 : clock := Clock noon_0733 1704110853.

Definition attacker : string := "203.0.113.5".

(** The call the handler makes for the event with status 404, an empty user
    agent, method GET and resource /admin/config, which scores 13. *)
Definition probe_call (now : clock) (dt : datetime) : call :=
  Call now now now 13 (Iso dt) "404" "GET" "/admin/config".

(** Twenty-five such calls at 12:07:33 on the empty table, through the
    store with the reserved words of DynamoDB. *)
Definition after_25_events : table :=
  run_calls dynamodb_reserved attacker (replicate 25 (probe_call clock_0733 noon_0733)) ∅.

(** One such call at 12:01:07 on the empty table, and a second one read
    through a later clock. *)
Definition after_first_event : table :=
  run_calls dynamodb_reserved attacker [probe_call clock_0107 noon_0107] ∅.

Definition after_second_event : table :=
  run_calls dynamodb_reserved attacker
    [probe_call clock_0107 noon_0107; probe_call clock_0733 noon_0107] ∅.

(** The record a store would hold after twenty-four accepted requests of
    score 13. *)
Definition record_of_24 : item :=
  Item 24 312 (Iso noon_0733) 1704197253 "medium" {["404"]} ∅ ∅.

(** The two records of one identity with ten requests of sum 130 at
    12:01:07, put into the table item by item. *)
Definition after_10_events : table :=
  <[(attacker, get_time_window clock_0107 (Iso noon_0107) 60) :=
      Item 10 130 (Iso noon_0107) 1704196867 "medium" ∅ {["GET"]} {["/admin/config"]}]>
    (<[(attacker, get_time_window clock_0107 (Iso noon_0107) 5) :=
         Item 10 130 (Iso noon_0107) 1704196867 "medium" {["404"]} ∅ ∅]> ∅).

(** *** Properties of the update path *)

(** The two keys of one call differ: their labels end in 5min and 60min. *)
Lemma window_keys_differ (now now' : clock) (ts : timestamp) (source_ip : string) :
  (source_ip, get_time_window now ts 5) <> (source_ip, get_time_window now' ts 60).
Proof. destruct ts; cbn; intros H; inversion H. Qed.

(** Both expressions spell out [ttl], a reserved word of DynamoDB: the store
    rejects both requests. *)
Lemma update_item_rejected (tbl : table) (w : write) :
  update_item dynamodb_reserved tbl w = Raise ClientError.
Proof. destruct w; reflexivity. Qed.

Lemma update_tracking_data_rejected (now_short now_ttl now_long : clock) (tbl : table)
    (source_ip : string) (score : Z) (ts : timestamp) (status method resource : string) :
  update_tracking_data dynamodb_reserved now_short now_ttl now_long tbl source_ip score ts
    status method resource = tbl.
Proof. unfold update_tracking_data. rewrite update_item_rejected. reflexivity. Qed.

Lemma run_calls_rejected (source_ip : string) (cs : list call) (tbl : table) :
  run_calls dynamodb_reserved source_ip cs tbl = tbl.
Proof.
  revert tbl. induction cs as [|c cs IH]; intros tbl; [reflexivity|].
  cbn [run_calls fold_left]. rewrite update_tracking_data_rejected. apply IH.
Qed.

(** What a call leaves in the table, for any store: nothing new, the
    five-minute record alone (the second request was rejected), or both
    records. *)
Lemma update_tracking_data_cases (reserved_word : string -> bool)
    (now_short now_ttl now_long : clock) (tbl : table)
    (source_ip : string) (score : Z) (ts : timestamp) (status method resource : string) :
  let s := short_request now_short now_ttl source_ip score ts status in
  let l := long_request now_long now_ttl source_ip score ts method resource in
  let tbl1 := <[write_key s := written_item (tbl !! write_key s) s]> tbl in
  let tbl' := update_tracking_data reserved_word now_short now_ttl now_long tbl source_ip
                score ts status method resource in
  tbl' = tbl \/ tbl' = tbl1
  \/ tbl' = <[write_key l := written_item (tbl !! write_key l) l]> tbl1.
Proof.
  cbv zeta. unfold update_tracking_data, update_item.
  destruct (existsb reserved_word (expression_names (short_request _ _ _ _ _ _)));
    [left; reflexivity|].
  destruct (existsb reserved_word (expression_names (long_request _ _ _ _ _ _ _)));
    [right; left; reflexivity|].
  right. right. f_equal. f_equal.
  apply lookup_insert_ne. apply window_keys_differ.
Qed.

(** *** The claims on the aggregation store *)

(** Claim C1, evaluated on the code.  After the 25 update calls of the
    probing event no record of the identity exists: the store rejects both
    requests of every call and the call swallows the error.  The request
    itself carries the range of the score of its one event: put on a record
    of sum 312 it would make the sum 325, whose range is [critical], and the
    stored range [medium]. *)
Theorem no_record_after_25_events :
  let would_be :=
    written_item (Some record_of_24)
      (short_request clock_0733 clock_0733 attacker 13 (Iso noon_0733) "404") in
  after_25_events = ∅
  /\ after_25_events !! (attacker, get_time_window clock_0733 (Iso noon_0733) 5) = None
  /\ request_count would_be = 25
  /\ abuse_score would_be = 325
  /\ get_abuse_score_range (abuse_score would_be) = "critical"
  /\ abuse_score_range would_be = "medium".
Proof.
  cbv zeta. unfold after_25_events. rewrite run_calls_rejected.
  repeat split; vm_compute; reflexivity.
Qed.

(** Claim C3, evaluated on the code.  One update call on the empty table
    leaves neither the five-minute nor the sixty-minute record: no element is
    added to any set.  As written, the first expression names [status_codes]
    and neither [methods] nor [resources], the second names these two and not
    [status_codes]. *)
Theorem update_adds_no_set_element :
  let names5 :=
    expression_names (short_request clock_0107 clock_0107 attacker 13 (Iso noon_0107) "404") in
  let names60 :=
    expression_names
      (long_request clock_0107 clock_0107 attacker 13 (Iso noon_0107) "GET" "/admin/config") in
  after_first_event !! (attacker, get_time_window clock_0107 (Iso noon_0107) 5) = None
  /\ after_first_event !! (attacker, get_time_window clock_0107 (Iso noon_0107) 60) = None
  /\ existsb (String.eqb "ttl") names5 = true
  /\ existsb (String.eqb "ttl") names60 = true
  /\ existsb (String.eqb "methods") names5 = false
  /\ existsb (String.eqb "resources") names5 = false
  /\ existsb (String.eqb "status_codes") names60 = false.
Proof.
  cbv zeta. unfold after_first_event. rewrite run_calls_rejected.
  repeat split; vm_compute; reflexivity.
Qed.

(** Claim C4, evaluated on the code.  Neither the first update call nor a
    second one 386 seconds later stores a record, so no expiry is set.  The
    request sets [ttl] without [if_not_exists]: put on the record of an
    earlier request it would replace the expiry by its own. *)
Theorem update_sets_no_expiry :
  let k := (attacker, get_time_window clock_0107 (Iso noon_0107) 5) in
  let first :=
    written_item None
      (short_request clock_0107 clock_0107 attacker 13 (Iso noon_0107) "404") in
  let second :=
    written_item (Some first)
      (short_request clock_0733 clock_0733 attacker 13 (Iso noon_0107) "404") in
  ttl <$> after_first_event !! k = None
  /\ ttl <$> after_second_event !! k = None
  /\ ttl first = 1704196867
  /\ ttl second = 1704197253.
Proof.
  cbv zeta. unfold after_first_event, after_second_event. rewrite !run_calls_rejected.
  repeat split; vm_compute; reflexivity.
Qed.

(** Claim C5 (amended).  The evaluator alerts exactly when the five-minute
    record of the current time exists and is over its limits, or the
    sixty-minute record exists and is over its limits; an absent five-minute
    record leaves the decision to the sixty-minute record. *)
Theorem check_abuse_thresholds_iff (limit5 limit60 : Z) (now : clock) (tbl : table)
    (source_ip : string) :
  let k5 := (source_ip, get_time_window now (Iso (utcnow now)) 5) in
  let k60 := (source_ip, get_time_window now (Iso (utcnow now)) 60) in
  check_abuse_thresholds limit5 limit60 now tbl source_ip = true <->
  (exists it, tbl !! k5 = Some it /\ (request_count it > limit5 \/ abuse_score it > 50))
  \/ (exists it, tbl !! k60 = Some it /\ (request_count it > limit60 \/ abuse_score it > 100)).
Proof.
  cbv zeta. unfold check_abuse_thresholds.
  assert (forall (r : option item) (a b : Z),
    match r with
    | Some it => (request_count it >? a) || (abuse_score it >? b)
    | None => false
    end = true <->
    exists it, r = Some it /\ (request_count it > a \/ abuse_score it > b)) as Hone.
  { intros [it|] a b; split.
    - intros H. exists it. split; [reflexivity|].
      apply orb_true_iff in H. rewrite !Z.gtb_gt in H. lia.
    - intros (it' & [= <-] & H). apply orb_true_iff. rewrite !Z.gtb_gt. lia.
    - discriminate.
    - intros (it' & H & _). discriminate. }
  rewrite <- !Hone.
  destruct (match tbl !! _ with Some _ => _ | None => false end);
    destruct (match tbl !! _ with Some _ => _ | None => false end);
    intuition congruence.
Qed.

(** Claim C5 as stated fails: with limits 100 and 1000, on a table that holds
    the two records of ten requests of score 13 at 12:01 and no record for
    the five-minute window of 12:07, the evaluator at 12:07 still alerts, on
    the hourly sum 130. *)
Lemma alert_without_short_record :
  after_10_events !! (attacker, get_time_window clock_0733 (Iso (utcnow clock_0733)) 5) = None
  /\ check_abuse_thresholds 100 1000 clock_0733 after_10_events attacker = true
  /\ check_abuse_thresholds 100 1000 clock_0733 after_10_events attacker <> false.
Proof. repeat split; vm_compute; (reflexivity || discriminate). Qed.

(** Claim C10, evaluated on the code.  Whatever the calls and their order,
    the table after them is the table before them: every increment is lost.
    Two calls on an absent record leave it absent, where the claim counts
    two requests. *)
Theorem every_update_is_lost (source_ip : string) (cs : list call) (tbl : table) :
  run_calls dynamodb_reserved source_ip cs tbl = tbl
  /\ from_option request_count 0
       (after_second_event !! (attacker, get_time_window clock_0107 (Iso noon_0107) 5)) = 0
  /\ from_option abuse_score 0
       (after_second_event !! (attacker, get_time_window clock_0107 (Iso noon_0107) 5)) = 0.
Proof.
  split; [apply run_calls_rejected|].
  unfold after_second_event. rewrite run_calls_rejected. split; reflexivity.
Qed.

End Detector.

(** ** ip_reputation_checker.py: the checkers and their merge *)

Module Reputation.

(** [s.split(sep)] for a one-character separator: never the empty list. *)
Fixpoint split (sep : ascii) (s : string) : list string :=
  match s with
  | EmptyString => [EmptyString]
  | String c t =>
      if Ascii.eqb c sep then EmptyString :: split sep t
      else match split sep t with
           | h :: rest => String c h :: rest
           | [] => [String c EmptyString]
           end
  end.

(** The characters [int()] skips at both ends of its argument: the ASCII
    blanks U+0009..U+000D and U+0020, and U+0085 and U+00A0, which it reads
    as blanks.  The separators U+001C..U+001F are not among them. *)
Definition is_space (c : ascii) : bool :=
  let n := N_of_ascii c in
  ((9 <=? n) && (n <=? 13) || (n =? 32) || (n =? 133) || (n =? 160))%N.

Definition digit_value (c : ascii) : option Z :=
  let n := N_of_ascii c in
  if ((48 <=? n) && (n <=? 57))%N then Some (Z.of_N n - 48) else None.

Fixpoint lstrip (s : string) : string :=
  match s with
  | String c t => if is_space c then lstrip t else s
  | EmptyString => EmptyString
  end.

Fixpoint rstrip (s : string) : string :=
  match s with
  | EmptyString => EmptyString
  | String c t =>
      match rstrip t with
      | EmptyString => if is_space c then EmptyString else String c EmptyString
      | t' => String c t'
      end
  end.

(** The digits of a decimal literal: single underscores are allowed between
    digits.  [acc] is the value read so far, [after_digit] tells whether the
    previous character was a digit. *)
Fixpoint digits (s : string) (acc : Z) (after_digit : bool) : option Z :=
  match s with
  | EmptyString => if after_digit then Some acc else None
  | String c t =>
      match digit_value c with
      | Some d => digits t (10 * acc + d) true
      | None =>
          if Ascii.eqb c "_" && after_digit
          then match t with
               | String c' _ =>
                   match digit_value c' with
                   | Some _ => digits t acc false
                   | None => None
                   end
               | EmptyString => None
               end
          else None
      end
  end.

(** [int(s)] on a string: surrounding white space, an optional sign, decimal
    digits; [ValueError] on anything else. *)
Definition int (s : string) : result Z :=
  let body := rstrip (lstrip s) in
  let signed :=
    match body with
    | String "+" t => digits t 0 false
    | String "-" t => Z.opp <$> digits t 0 false
    | _ => digits body 0 false
    end in
  match signed with
  | Some n => Ok n
  | None => Raise ValueError
  end.

(** [o[i]] on a list known to have four elements. *)
Definition octet (o : list string) (i : nat) : string := nth i o EmptyString.

(** The four [suspicious_patterns]. *)
Definition private_class_a (o : list string) : result bool :=
  Ok (String.eqb (octet o 0) "10").

Definition private_class_b (o : list string) : result bool :=
  if String.eqb (octet o 0) "172"
  then n ← int (octet o 1); Ok ((16 <=? n) && (n <=? 31))
  else Ok false.

Definition private_class_c (o : list string) : result bool :=
  Ok (String.eqb (octet o 0) "192" && String.eqb (octet o 1) "168").

Definition cloudflare_dns (o : list string) : result bool :=
  Ok (String.eqb (octet o 0) "1" && String.eqb (octet o 1) "1" &&
      String.eqb (octet o 2) "1" && String.eqb (octet o 3) "1").

Definition suspicious_patterns : list (list string -> result bool) :=
  [private_class_a; private_class_b; private_class_c; cloudflare_dns].

Definition get_list (d : gmap string pyval) (k : string) : list string :=
  match d !! k with
  | Some (VList l) => l
  | _ => []
  end.

Definition get_int (d : gmap string pyval) (k : string) : Z :=
  match d !! k with
  | Some (VInt n) => n
  | _ => 0
  end.

(** The [for pattern in suspicious_patterns] loop: the first pattern that
    holds marks the result and leaves the loop; a pattern that raises is
    skipped. *)
Fixpoint scan_patterns (patterns : list (list string -> result bool))
    (octets : list string) (res : gmap string pyval) : gmap string pyval :=
  match patterns with
  | [] => res
  | pattern :: rest =>
      match pattern octets with
      | Ok true =>
          let res :=
            <["threat_types" := VList (get_list res "threat_types" ++ ["suspicious_range"])]> res in
          <["confidence_score" := VInt (Z.max (get_int res "confidence_score") 30)]> res
      | Ok false => scan_patterns rest octets res
      | Raise _ => scan_patterns rest octets res
      end
  end.

Definition check_ip_patterns (ip_address : string) : gmap string pyval :=
  let res : gmap string pyval := {["sources" := VList ["pattern_check"]]} in
  let octets := split "." ip_address in
  if negb (length octets =? 4)%nat then res
  else scan_patterns suspicious_patterns octets res.

Definition bad_patterns : list string :=
  ["0.0.0.0"; "127.0.0.1"; "255.255.255.255"].

Definition check_known_bad_ranges (ip_address : string) : gmap string pyval :=
  let res : gmap string pyval := {["sources" := VList ["bad_ranges_check"]]} in
  if existsb (String.eqb ip_address) bad_patterns
  then <["confidence_score" := VInt 90]>
         (<["threat_types" := VList ["invalid_ip"]]>
            (<["is_malicious" := VBool true]> res))
  else res.

Definition check_geolocation_risks (ip_address : string) : gmap string pyval :=
  let res : gmap string pyval := {["sources" := VList ["geo_check"]]} in
  <["confidence_score" := VInt 10]> res.

(** [d.update(other)]: every key of [other] replaces the entry of [d]. *)
Definition update (d other : gmap string pyval) : gmap string pyval := other ∪ d.

(** [perform_reputation_lookup]; [lookup_timestamp] is the ISO string of the
    time of the call.  No checker raises on a string, so the [except] branch
    with the safe default is not entered. *)
Definition perform_reputation_lookup (lookup_timestamp ip_address : string) : gmap string pyval :=
  let reputation_data : gmap string pyval :=
    <["is_malicious" := VBool false]>
      (<["threat_types" := VList []]>
         (<["confidence_score" := VInt 0]>
            (<["last_seen" := VNone]>
               (<["sources" := VList []]>
                  {["lookup_timestamp" := VStr lookup_timestamp]})))) in
  let reputation_data := update reputation_data (check_ip_patterns ip_address) in
  let reputation_data := update reputation_data (check_known_bad_ranges ip_address) in
  let reputation_data := update reputation_data (check_geolocation_risks ip_address) in
  reputation_data.

(** The merge rule as the specification words it. *)
Definition verdict (d : gmap string pyval) : bool :=
  match d !! "is_malicious" with
  | Some (VBool b) => b
  | _ => false
  end.

Definition spec_is_malicious (checks : list (gmap string pyval)) : bool :=
  existsb verdict checks.

Definition spec_confidence_score (checks : list (gmap string pyval)) : Z :=
  foldr Z.max 0 ((fun d => get_int d "confidence_score") <$> checks).

Definition spec_sources (checks : list (gmap string pyval)) : gset string :=
  ⋃ ((fun d => list_to_set (get_list d "sources")) <$> checks).

Definition spec_threat_types (checks : list (gmap string pyval)) : gset string :=
  ⋃ ((fun d => list_to_set (get_list d "threat_types")) <$> checks).

Definition checkers (ip_address : string) : list (gmap string pyval) :=
  [check_ip_patterns ip_address; check_known_bad_ranges ip_address;
   check_geolocation_risks ip_address].

(** *** Properties of the merge *)

Example int_examples :
  int "16" = Ok 16 /\ int " +1_6 " = Ok 16 /\ int "-031" = Ok (-31)
  /\ int "1__6" = Raise ValueError /\ int "x" = Raise ValueError
  /\ int "" = Raise ValueError /\ int "16_" = Raise ValueError
  /\ int (String (ascii_of_nat 28) "16") = Raise ValueError
  /\ int (String (ascii_of_nat 160) "16") = Ok 16.
Proof. repeat split; vm_compute; reflexivity. Qed.

Example split_examples :
  split "." "10.0.0.1" = ["10"; "0"; "0"; "1"]
  /\ split "." "" = [""]
  /\ split "." "1..2." = ["1"; ""; "2"; ""].
Proof. repeat split; vm_compute; reflexivity. Qed.

Example check_ip_patterns_examples :
  check_ip_patterns "172.20.1.1" !! "confidence_score" = Some (VInt 30)
  /\ check_ip_patterns "172.x.1.1" !! "confidence_score" = None
  /\ check_ip_patterns "172.x.1.1" !! "sources" = Some (VList ["pattern_check"])
  /\ check_ip_patterns "10.1.2.3" !! "threat_types" = Some (VList ["suspicious_range"])
  /\ check_ip_patterns "8.8.8.8" !! "threat_types" = None.
Proof. repeat split; vm_compute; reflexivity. Qed.

(** Whatever the checkers before it found, the geolocation checker runs last
    and its two entries replace the merged ones. *)
Lemma last_checker_wins (lookup_timestamp ip_address : string) :
  perform_reputation_lookup lookup_timestamp ip_address !! "confidence_score" = Some (VInt 10)
  /\ perform_reputation_lookup lookup_timestamp ip_address !! "sources"
     = Some (VList ["geo_check"]).
Proof.
  unfold perform_reputation_lookup, update.
  split; apply lookup_union_Some_l; vm_compute; reflexivity.
Qed.

(** Claim C2, evaluated on the code.  For each of the three reserved
    literals the known-bad-literal checker reports a malicious address with
    confidence 90, the maximum over the three checkers is 90 and the union of
    their sources has three names; the merged entry is malicious, but its
    confidence is 10 and its only source is the geolocation checker. *)
Theorem reserved_literal_lookup (lookup_timestamp ip_address : string) :
  In ip_address bad_patterns ->
  let merged := perform_reputation_lookup lookup_timestamp ip_address in
  check_known_bad_ranges ip_address !! "confidence_score" = Some (VInt 90)
  /\ spec_is_malicious (checkers ip_address) = true
  /\ spec_confidence_score (checkers ip_address) = 90
  /\ spec_sources (checkers ip_address) = {["pattern_check"; "bad_ranges_check"; "geo_check"]}
  /\ merged !! "is_malicious" = Some (VBool true)
  /\ merged !! "threat_types" = Some (VList ["invalid_ip"])
  /\ merged !! "confidence_score" = Some (VInt 10)
  /\ merged !! "sources" = Some (VList ["geo_check"]).
Proof.
  cbv zeta. intros [<- | [<- | [<- | []]]]; repeat split; vm_compute; reflexivity.
Qed.

Lemma reserved_literal_lookup_witness :
  perform_reputation_lookup "2024-01-01T12:07:33" "0.0.0.0" !! "confidence_score"
  = Some (VInt 10).
Proof.
  apply (reserved_literal_lookup "2024-01-01T12:07:33" "0.0.0.0").
  left. reflexivity.
Defined.

End Reputation.

(** ** abuse_response_handler.py: the planner and the executor *)

Module Response.

(** A response action: the dictionary with its [type] and the optional
    entries the planner writes. *)
Record action : Type := Action {
  a_type : string;
  severity : option string;
  priority : option string;
  duration_minutes : option Z;
  error : option exn
}.

Definition identify (type sev : string) : action :=
  Action type (Some sev) None None None.

Definition timed (type : string) (minutes : Z) : action :=
  Action type None None (Some minutes) None.

Definition alert (type prio : string) : action :=
  Action type None (Some prio) None None.

Definition default_action : action := timed "increase_logging_detail" 30.

(** The list returned by the [except] branch of the planner. *)
Definition fallback_plan (e : exn) : list action :=
  [Action "alert_admins" None (Some "high") None (Some e)].

Definition determine_response_actions (alarm_name : pyval) (alarm_reason : string) : list action :=
  match str_receiver alarm_name with
  | Raise e => fallback_plan e
  | Ok name =>
      let lowered := lower name in
      let actions : list action := [] in
      let actions :=
        if contains "high-volume" lowered then
          actions ++ [identify "identify_high_volume_ips" "medium";
                      timed "temporary_rate_limit" 30;
                      alert "alert_admins" "high"]
        else if contains "url-creation" lowered then
          actions ++ [identify "identify_spam_creators" "high";
                      timed "block_suspicious_ips" 60;
                      alert "alert_admins" "critical"]
        else if contains "custom-abuse" lowered then
          if contains "scanner" lowered then
            actions ++ [identify "identify_scanners" "high";
                        timed "block_scanner_ips" 120;
                        alert "alert_security_team" "high"]
          else if contains "suspicious_patterns" lowered then
            actions ++ [identify "analyze_suspicious_patterns" "medium";
                        timed "temporary_monitoring_increase" 60;
                        alert "alert_admins" "medium"]
          else actions
        else actions in
      actions ++ [default_action]
  end.

(** An entry of an identification result: the dictionary built from one
    item of the tracking table. *)
Record ip_info : Type := IpInfo {
  ip : string;
  info_request_count : Z;
  info_abuse_score : Z;
  info_last_seen : string
}.

(** The [results] dictionary of one run; the three identification entries
    exist only once their action has run. *)
Record results : Type := Results {
  successful_actions : list string;
  failed_actions : list string;
  ips_blocked : list ip_info;
  notifications_sent : Z;
  high_volume_ips : option (list ip_info);
  spam_creator_ips : option (list ip_info);
  scanner_ips : option (list ip_info)
}.

Definition initial_results : results := Results [] [] [] 0 None None None.

Definition add_successful (r : results) (t : string) : results :=
  Results (successful_actions r ++ [t]) (failed_actions r) (ips_blocked r)
    (notifications_sent r) (high_volume_ips r) (spam_creator_ips r) (scanner_ips r).

Definition add_failed (r : results) (t : string) : results :=
  Results (successful_actions r) (failed_actions r ++ [t]) (ips_blocked r)
    (notifications_sent r) (high_volume_ips r) (spam_creator_ips r) (scanner_ips r).

Definition extend_ips_blocked (r : results) (blocked : list ip_info) : results :=
  Results (successful_actions r) (failed_actions r) (ips_blocked r ++ blocked)
    (notifications_sent r) (high_volume_ips r) (spam_creator_ips r) (scanner_ips r).

Definition set_high_volume_ips (r : results) (ips : list ip_info) : results :=
  Results (successful_actions r) (failed_actions r) (ips_blocked r)
    (notifications_sent r) (Some ips) (spam_creator_ips r) (scanner_ips r).

Definition set_spam_creator_ips (r : results) (ips : list ip_info) : results :=
  Results (successful_actions r) (failed_actions r) (ips_blocked r)
    (notifications_sent r) (high_volume_ips r) (Some ips) (scanner_ips r).

Definition set_scanner_ips (r : results) (ips : list ip_info) : results :=
  Results (successful_actions r) (failed_actions r) (ips_blocked r)
    (notifications_sent r) (high_volume_ips r) (spam_creator_ips r) (Some ips).

(** [x in [a, b]] on action types. *)
Definition one_of (t : string) (types : list string) : bool :=
  existsb (String.eqb t) types.

Definition nonempty {A : Type} (l : list A) : bool :=
  match l with [] => false | _ => true end.

Section Run.

(** The name of the web ACL from the environment; the empty string when the
    firewall control plane is not configured. *)
Variable WAF_WEB_ACL_NAME : string.

(** What the three identification functions return in this run.  Each reads
    the tracking table, catches its own exceptions and returns a list. *)
Variable identify_high_volume_ips : list ip_info.
Variable identify_spam_creators : list ip_info.
Variable identify_scanner_ips : list ip_info.

Definition configured : bool := negb (String.eqb WAF_WEB_ACL_NAME "").

Definition block_ips_in_waf (ip_addresses : list ip_info) (minutes : Z) : list ip_info :=
  if negb configured then [] else take 5 ip_addresses.

Definition apply_temporary_rate_limit (minutes : Z) : bool :=
  if negb configured then false else true.

(** The target list a blocking action builds from the run's context. *)
Definition ips_to_block (r : results) : list ip_info :=
  let ips : list ip_info := [] in
  let ips :=
    match spam_creator_ips r with
    | Some found => ips ++ take 5 found
    | None => ips
    end in
  let ips :=
    match scanner_ips r with
    | Some found => ips ++ take 5 found
    | None => ips
    end in
  ips.

(** The body of the [for action in actions] loop. *)
Definition execute_action (r : results) (a : action) : results :=
  let action_type := a_type a in
  if String.eqb action_type "identify_high_volume_ips" then
    add_successful (set_high_volume_ips r identify_high_volume_ips) action_type
  else if String.eqb action_type "identify_spam_creators" then
    add_successful (set_spam_creator_ips r identify_spam_creators) action_type
  else if String.eqb action_type "identify_scanners" then
    add_successful (set_scanner_ips r identify_scanner_ips) action_type
  else if one_of action_type ["block_suspicious_ips"; "block_scanner_ips"] then
    let targets := ips_to_block r in
    if nonempty targets && configured then
      let blocked := block_ips_in_waf targets (default 60 (duration_minutes a)) in
      add_successful (extend_ips_blocked r blocked) action_type
    else r
  else if String.eqb action_type "temporary_rate_limit" then
    if configured then
      if apply_temporary_rate_limit (default 30 (duration_minutes a))
      then add_successful r action_type
      else add_failed r action_type
    else r
  else if one_of action_type ["alert_admins"; "alert_security_team"] then
    add_successful r action_type
  else if one_of action_type ["increase_logging_detail"; "temporary_monitoring_increase"] then
    add_successful r action_type
  else add_failed r action_type.

Definition run_actions (actions : list action) (r : results) : results :=
  fold_left execute_action actions r.

Definition execute_response_actions (actions : list action) : results :=
  run_actions actions initial_results.

(** The recorded result of an identification action, by action type. *)
Definition identification_result (t : string) : option (list ip_info) :=
  if String.eqb t "identify_high_volume_ips" then Some identify_high_volume_ips
  else if String.eqb t "identify_spam_creators" then Some identify_spam_creators
  else if String.eqb t "identify_scanners" then Some identify_scanner_ips
  else None.

End Run.

(** The alarm names that match no category of the planner. *)
Definition unmatched (alarm_name : string) : bool :=
  let lowered := lower alarm_name in
  negb (contains "high-volume" lowered)
  && negb (contains "url-creation" lowered)
  && negb (contains "custom-abuse" lowered
           && (contains "scanner" lowered || contains "suspicious_patterns" lowered)).

(** The four plans of the policy table, each with the default action. *)
Definition high_volume_plan : list action :=
  [identify "identify_high_volume_ips" "medium"; timed "temporary_rate_limit" 30;
   alert "alert_admins" "high"; default_action].

Definition url_creation_plan : list action :=
  [identify "identify_spam_creators" "high"; timed "block_suspicious_ips" 60;
   alert "alert_admins" "critical"; default_action].

Definition scanner_plan : list action :=
  [identify "identify_scanners" "high"; timed "block_scanner_ips" 120;
   alert "alert_security_team" "high"; default_action].

Definition suspicious_patterns_plan : list action :=
  [identify "analyze_suspicious_patterns" "medium"; timed "temporary_monitoring_increase" 60;
   alert "alert_admins" "medium"; default_action].

(** Six entries of an identification result. *)
Definition six_creators : list ip_info :=
  (fun n => IpInfo ("198.51.100." +:+ n) 40 90 "2024-01-01T12:07:33") <$>
    ["1"; "2"; "3"; "4"; "5"; "6"].

(** *** Properties of the planner *)

(** The planner has five outcomes on a string. *)
Lemma plan_cases (alarm_name alarm_reason : string) :
  let plan := determine_response_actions (VStr alarm_name) alarm_reason in
  plan = high_volume_plan \/ plan = url_creation_plan \/ plan = scanner_plan
  \/ plan = suspicious_patterns_plan
  \/ (plan = [default_action] /\ unmatched alarm_name = true).
Proof.
  cbv zeta. unfold determine_response_actions, unmatched.
  cbn [str_receiver].
  destruct (contains "high-volume" (lower alarm_name)); [left; reflexivity|].
  destruct (contains "url-creation" (lower alarm_name)); [right; left; reflexivity|].
  destruct (contains "custom-abuse" (lower alarm_name)); [|repeat right; split; reflexivity].
  destruct (contains "scanner" (lower alarm_name)); [right; right; left; reflexivity|].
  destruct (contains "suspicious_patterns" (lower alarm_name));
    [right; right; right; left; reflexivity|].
  repeat right; split; reflexivity.
Qed.

(** The [alert_admins] fallback is the whole plan when the classification
    raises, which it does on a name that is not a string. *)
Lemma fallback_only_on_exception (alarm_name : pyval) (alarm_reason : string) :
  (forall s, alarm_name <> VStr s) ->
  determine_response_actions alarm_name alarm_reason = fallback_plan AttributeError.
Proof.
  intros Hns. destruct alarm_name; try reflexivity. destruct (Hns s). reflexivity.
Qed.

(** Claim C7 (amended).  For every alarm name the plan ends with the default
    [increase_logging_detail] action, and a name that matches no category
    yields the plan made of that one action, without [alert_admins]. *)
Theorem plan_ends_with_default_action (alarm_name alarm_reason : string) :
  let plan := determine_response_actions (VStr alarm_name) alarm_reason in
  last plan = Some default_action
  /\ (unmatched alarm_name = true ->
      plan = [default_action]
      /\ one_of "alert_admins" (a_type <$> plan) = false).
Proof.
  cbv zeta. split.
  - destruct (plan_cases alarm_name alarm_reason) as [E|[E|[E|[E|[E _]]]]];
      rewrite E; reflexivity.
  - intros Hun.
    assert (determine_response_actions (VStr alarm_name) alarm_reason = [default_action]) as E.
    { revert Hun. unfold determine_response_actions, unmatched. cbn [str_receiver].
      destruct (contains "high-volume" (lower alarm_name)); [discriminate|].
      destruct (contains "url-creation" (lower alarm_name)); [discriminate|].
      destruct (contains "custom-abuse" (lower alarm_name)); [|reflexivity].
      destruct (contains "scanner" (lower alarm_name)); [discriminate|].
      destruct (contains "suspicious_patterns" (lower alarm_name)); [discriminate|].
      reflexivity. }
    rewrite E. split; reflexivity.
Qed.

Lemma plan_ends_with_default_action_witness :
  determine_response_actions (VStr "disk-space-low") "Threshold Crossed" = [default_action].
Proof.
  apply (plan_ends_with_default_action "disk-space-low" "Threshold Crossed").
  vm_compute. reflexivity.
Defined.

(** Claim C7 as stated fails: an alarm of no known category gets the default
    action alone; its plan holds no [alert_admins] action. *)
Lemma unmatched_alarm_has_no_alert :
  let plan := determine_response_actions (VStr "disk-space-low") "Threshold Crossed" in
  plan = [default_action]
  /\ one_of "alert_admins" (a_type <$> plan) = false.
Proof. cbv zeta. split; vm_compute; reflexivity. Qed.

(** *** Properties of the executor *)

Section RunProperties.

Variable WAF_WEB_ACL_NAME : string.
Variable identify_high_volume_ips : list ip_info.
Variable identify_spam_creators : list ip_info.
Variable identify_scanner_ips : list ip_info.

Local Abbreviation exec :=
  (execute_action WAF_WEB_ACL_NAME identify_high_volume_ips identify_spam_creators
     identify_scanner_ips).
Local Abbreviation run :=
  (run_actions WAF_WEB_ACL_NAME identify_high_volume_ips identify_spam_creators
     identify_scanner_ips).
Local Abbreviation found :=
  (identification_result identify_high_volume_ips identify_spam_creators
     identify_scanner_ips).

(** A blocking action, in any state of the run: it does nothing when there
    is no target or no web ACL, and otherwise records at most five of its
    targets. *)
Lemma execute_block_action (r : results) (a : action) :
  one_of (a_type a) ["block_suspicious_ips"; "block_scanner_ips"] = true ->
  exec r a =
  if nonempty (ips_to_block r) && configured WAF_WEB_ACL_NAME
  then add_successful (extend_ips_blocked r (take 5 (ips_to_block r))) (a_type a)
  else r.
Proof.
  intros Hblock. unfold execute_action.
  assert (a_type a = "block_suspicious_ips" \/ a_type a = "block_scanner_ips") as Ht.
  { unfold one_of in Hblock. cbn [existsb] in Hblock.
    destruct (String.eqb_spec (a_type a) "block_suspicious_ips"); [left; assumption|].
    destruct (String.eqb_spec (a_type a) "block_scanner_ips"); [right; assumption|].
    discriminate. }
  destruct Ht as [-> | ->]; cbn -[ips_to_block take];
    destruct (nonempty (ips_to_block r)); cbn -[ips_to_block take]; try reflexivity;
    unfold block_ips_in_waf; destruct (configured WAF_WEB_ACL_NAME); reflexivity.
Qed.

(** What an action leaves under the two identification entries that
    blocking reads. *)
Lemma execute_action_spam_creators (r : results) (a : action) :
  spam_creator_ips (exec r a) =
  if String.eqb "identify_spam_creators" (a_type a) then Some identify_spam_creators
  else spam_creator_ips r.
Proof.
  unfold execute_action, block_ips_in_waf, apply_temporary_rate_limit.
  rewrite (String.eqb_sym "identify_spam_creators").
  destruct (String.eqb_spec (a_type a) "identify_high_volume_ips") as [->|_];
    [reflexivity|].
  destruct (String.eqb (a_type a) "identify_spam_creators"); [reflexivity|].
  repeat match goal with
         | |- context [if ?b then _ else _] => destruct b
         end; reflexivity.
Qed.

Lemma execute_action_scanners (r : results) (a : action) :
  scanner_ips (exec r a) =
  if String.eqb "identify_scanners" (a_type a) then Some identify_scanner_ips
  else scanner_ips r.
Proof.
  unfold execute_action, block_ips_in_waf, apply_temporary_rate_limit.
  rewrite (String.eqb_sym "identify_scanners").
  destruct (String.eqb_spec (a_type a) "identify_high_volume_ips") as [->|_];
    [reflexivity|].
  destruct (String.eqb_spec (a_type a) "identify_spam_creators") as [->|_];
    [reflexivity|].
  destruct (String.eqb (a_type a) "identify_scanners"); [reflexivity|].
  repeat match goal with
         | |- context [if ?b then _ else _] => destruct b
         end; reflexivity.
Qed.

Lemma run_actions_spam_creators (pre : list action) (r : results) :
  spam_creator_ips (run pre r) =
  if one_of "identify_spam_creators" (a_type <$> pre) then Some identify_spam_creators
  else spam_creator_ips r.
Proof.
  revert r. induction pre as [|a pre IH]; intros r; [reflexivity|].
  cbn [run_actions fold_left]. fold (run pre (exec r a)).
  rewrite IH, execute_action_spam_creators.
  rewrite fmap_cons. unfold one_of. cbn [existsb].
  destruct (String.eqb "identify_spam_creators" (a_type a)); cbn [orb];
    destruct (existsb (String.eqb "identify_spam_creators") (a_type <$> pre)); reflexivity.
Qed.

Lemma run_actions_scanners (pre : list action) (r : results) :
  scanner_ips (run pre r) =
  if one_of "identify_scanners" (a_type <$> pre) then Some identify_scanner_ips
  else scanner_ips r.
Proof.
  revert r. induction pre as [|a pre IH]; intros r; [reflexivity|].
  cbn [run_actions fold_left]. fold (run pre (exec r a)).
  rewrite IH, execute_action_scanners.
  rewrite fmap_cons. unfold one_of. cbn [existsb].
  destruct (String.eqb "identify_scanners" (a_type a)); cbn [orb];
    destruct (existsb (String.eqb "identify_scanners") (a_type <$> pre)); reflexivity.
Qed.

(** Claim C8 (amended).  After any list of actions, the target list of a
    blocking action is the first five spam creators found, if their
    identification ran before, followed by the first five scanners found, if
    theirs ran before; the high-volume result is no part of it.  With no
    target or no configured web ACL the action leaves the results as they
    were; otherwise it blocks the first five targets and is recorded as
    successful. *)
Theorem block_action_targets (pre : list action) (a : action) :
  one_of (a_type a) ["block_suspicious_ips"; "block_scanner_ips"] = true ->
  let before := run pre initial_results in
  let after := exec before a in
  let targets := ips_to_block before in
  targets =
    (if one_of "identify_spam_creators" (a_type <$> pre)
     then take 5 identify_spam_creators else [])
    ++ (if one_of "identify_scanners" (a_type <$> pre)
        then take 5 identify_scanner_ips else [])
  /\ (targets = [] \/ WAF_WEB_ACL_NAME = "" -> after = before)
  /\ (targets <> [] -> WAF_WEB_ACL_NAME <> "" ->
      ips_blocked after = ips_blocked before ++ take 5 targets
      /\ successful_actions after = successful_actions before ++ [a_type a]
      /\ failed_actions after = failed_actions before).
Proof.
  intros Hblock. cbv zeta.
  rewrite (execute_block_action _ _ Hblock).
  split; [|split].
  - unfold ips_to_block.
    rewrite run_actions_spam_creators, run_actions_scanners.
    cbn [initial_results spam_creator_ips scanner_ips].
    destruct (one_of "identify_spam_creators" (a_type <$> pre)),
      (one_of "identify_scanners" (a_type <$> pre));
      cbn [app]; rewrite ?app_nil_r; reflexivity.
  - intros Hskip.
    assert (nonempty (ips_to_block (run pre initial_results))
            && configured WAF_WEB_ACL_NAME = false) as ->; [|reflexivity].
    destruct Hskip as [-> | ->]; [reflexivity | apply andb_false_r].
  - intros Hne Hwaf.
    assert (nonempty (ips_to_block (run pre initial_results))
            && configured WAF_WEB_ACL_NAME = true) as ->.
    { apply andb_true_iff. split.
      - destruct (ips_to_block (run pre initial_results)); [congruence | reflexivity].
      - unfold configured. destruct (String.eqb_spec WAF_WEB_ACL_NAME ""); [contradiction|].
        reflexivity. }
    repeat split.
Qed.

End RunProperties.

(** A run with six spam creators found and a configured web ACL blocks the
    first five; the same run without a web ACL blocks none. *)
Example configured_run_blocks_five :
  let res := execute_response_actions "squrl-acl" [] six_creators [] url_creation_plan in
  ips_blocked res = take 5 six_creators
  /\ successful_actions res =
     ["identify_spam_creators"; "block_suspicious_ips"; "alert_admins";
      "increase_logging_detail"]
  /\ failed_actions res = [].
Proof. cbv zeta. repeat split; vm_compute; reflexivity. Qed.

Example unconfigured_run_blocks_none :
  let res := execute_response_actions "" [] six_creators [] url_creation_plan in
  ips_blocked res = []
  /\ successful_actions res =
     ["identify_spam_creators"; "alert_admins"; "increase_logging_detail"]
  /\ failed_actions res = [].
Proof. cbv zeta. repeat split; vm_compute; reflexivity. Qed.

(** Two identifications before the block: ten targets, five blocked. *)
Lemma block_action_targets_witness :
  let pre := [identify "identify_spam_creators" "high"; identify "identify_scanners" "high"] in
  let before := run_actions "squrl-acl" [] six_creators six_creators pre initial_results in
  let after :=
    execute_action "squrl-acl" [] six_creators six_creators before
      (timed "block_scanner_ips" 120) in
  length (ips_to_block before) = 10%nat
  /\ ips_blocked after = take 5 six_creators.
Proof.
  destruct (block_action_targets "squrl-acl" [] six_creators six_creators
              [identify "identify_spam_creators" "high"; identify "identify_scanners" "high"]
              (timed "block_scanner_ips" 120)) as (Ht & _ & Hrun).
  - reflexivity.
  - split.
    + cbv zeta in Ht. rewrite Ht. reflexivity.
    + destruct Hrun as (Hb & _).
      * cbv zeta in Ht. rewrite Ht. discriminate.
      * discriminate.
      * cbv zeta in Hb. rewrite Hb. cbv zeta in Ht. rewrite Ht. reflexivity.
Defined.

(** Claim C8 as stated fails: the high-volume identification before a
    blocking action has recorded six entries, and the target list of the
    blocking action is empty; with a configured web ACL the action still
    blocks nothing. *)
Lemma high_volume_result_is_no_target :
  let before :=
    run_actions "squrl-acl" six_creators [] []
      [identify "identify_high_volume_ips" "medium"] initial_results in
  high_volume_ips before = Some six_creators
  /\ ips_to_block before = []
  /\ execute_action "squrl-acl" six_creators [] [] before (timed "block_suspicious_ips" 60)
     = before.
Proof. cbv zeta. repeat split; vm_compute; reflexivity. Qed.

End Response.

(** ** More on the scoring function: bounds and errors *)

Module ScoringFacts.

Import Scoring.

Definition is_str (v : pyval) : bool :=
  match v with
  | VStr _ => true
  | _ => false
  end.

(** The characters of a string value; the empty string for any other value. *)
Definition text (v : pyval) : string :=
  match v with
  | VStr s => s
  | _ => EmptyString
  end.

Lemma lower_char_idem (c : ascii) : lower_char (lower_char c) = lower_char c.
Proof. destruct c as [[] [] [] [] [] [] [] []]; vm_compute; reflexivity. Qed.

Lemma lower_idem (s : string) : lower (lower s) = lower s.
Proof.
  induction s as [|c s IH]; [reflexivity|].
  cbn [lower]. rewrite lower_char_idem, IH. reflexivity.
Qed.

(** Property X1.  The whole score lies between 0 and 19, so the cap at 100 of the last
    line is never the smaller argument; 19 is reached. *)
Theorem score_between_0_and_19 (source_ip : pyval) (status user_agent method resource : string) :
  (exists score,
      calculate_abuse_score source_ip (VStr status) (VStr user_agent) (VStr method)
        (VStr resource) = Ok score
      /\ 0 <= score <= 19)
  /\ calculate_abuse_score source_ip (VStr "429") (VStr "bot") (VStr "GET") (VStr "/.env")
     = Ok 19.
Proof.
  split; [|vm_compute; reflexivity].
  exists (spec_score status user_agent method resource).
  split; [apply calculate_abuse_score_spec|].
  split; [|apply spec_score_le_19].
  unfold spec_score. apply Z.le_max_l.
Qed.

(** The closed form of the scoring call on values of any type. *)
Lemma calculate_abuse_score_closed_form
    (source_ip status user_agent method resource : pyval) :
  calculate_abuse_score source_ip status user_agent method resource =
  if is_str status && is_str user_agent && is_str resource
  then Ok (spec_score (text status) (text user_agent) (text method) (text resource))
  else Raise AttributeError.
Proof.
  destruct status as [| | |status|]; try reflexivity.
  destruct user_agent as [| | |user_agent|]; try reflexivity.
  destruct resource as [| | |resource|];
    try (unfold calculate_abuse_score; cbn [startswith str_receiver mbind result_bind];
         reflexivity).
  cbn [is_str text andb].
  rewrite <- (calculate_abuse_score_spec source_ip).
  destruct method; reflexivity.
Qed.

(** Property X2.  The scoring call raises exactly when the status, the user agent or the
    resource is not a string, and then with [AttributeError]; the source IP
    is not looked at, and a method that is not a string scores like the
    empty method. *)
Theorem scoring_raises_exactly_on_non_strings
    (source_ip status user_agent method resource : pyval) :
  (is_str status && is_str user_agent && is_str resource = false <->
   calculate_abuse_score source_ip status user_agent method resource
   = Raise AttributeError)
  /\ (forall e, calculate_abuse_score source_ip status user_agent method resource = Raise e ->
                e = AttributeError)
  /\ calculate_abuse_score source_ip status user_agent method resource
     = calculate_abuse_score VNone status user_agent (VStr (text method)) resource.
Proof.
  rewrite !calculate_abuse_score_closed_form. cbn [text].
  destruct (is_str status && is_str user_agent && is_str resource).
  - repeat split; intros; congruence.
  - repeat split; intros; congruence.
Qed.

End ScoringFacts.

(** ** More on the detector: windows, store invariants, the handler *)

Module DetectorFacts.

Import Detector.

(** What every record written by the update path satisfies: it counts at
    least one request, its sum is between 0 and 19 per request, its stored
    range is one of the two lowest, a five-minute record carries status codes
    only and a sixty-minute record methods and resources only. *)
Definition record_ok (k : string * window_key) (it : item) : Prop :=
  1 <= request_count it
  /\ 0 <= abuse_score it <= 19 * request_count it
  /\ (abuse_score_range it = "low" \/ abuse_score_range it = "medium")
  /\ ((k.2.2 = 5 /\ status_codes it <> ∅ /\ methods it = ∅ /\ resources it = ∅)
      \/ (k.2.2 = 60 /\ status_codes it = ∅ /\ methods it <> ∅ /\ resources it <> ∅)).

Definition table_ok (tbl : table) : Prop := map_Forall record_ok tbl.

(** An event whose fields, where present, are strings.  The timestamp is
    kept as its parse. *)
Record event : Type := Event {
  ev_source_ip : option string;
  ev_status : option string;
  ev_timestamp : option timestamp;
  ev_user_agent : option string;
  ev_method : option string;
  ev_resource : option string
}.

(** The value [event.get(key)] of a field. *)
Definition field (o : option string) : pyval :=
  match o with
  | Some s => VStr s
  | None => VNone
  end.

(** What the handler sends out: the alert of [send_abuse_alert] and the
    metrics of [publish_abuse_metrics]. *)
Inductive effect : Type :=
| AbuseAlert (source_ip : string) (abuse_score : Z) (status : string)
| AbuseMetrics (source_ip : string) (abuse_score : Z) (status : string).

Record response : Type := Response {
  status_code : Z;
  body_abuse_score : option Z;
  body_alert_sent : option bool
}.

(** The clock readings of one handler call, in the order of the calls of
    [datetime.utcnow()]: for the default of a missing timestamp, in the
    fallback of the first [get_time_window], for the expiry, in the fallback
    of the second [get_time_window], and in [check_abuse_thresholds]. *)
Record readings : Type := Readings {
  at_receipt : clock;
  at_short_window : clock;
  at_expiry : clock;
  at_long_window : clock;
  at_check : clock
}.

Section Handler.

Variable reserved_word : string -> bool.
Variable ABUSE_THRESHOLD_5MIN : Z.
Variable ABUSE_THRESHOLD_HOUR : Z.

Definition handler (now : readings) (tbl : table) (ev : event) : table * list effect * response :=
  let source_ip := field (ev_source_ip ev) in
  let status := field (ev_status ev) in
  let ts := default (Iso (utcnow (at_receipt now))) (ev_timestamp ev) in
  let user_agent := default "" (ev_user_agent ev) in
  let method := default "" (ev_method ev) in
  let resource := default "" (ev_resource ev) in
  if negb (truthy source_ip) then (tbl, [], Response 400 None None)
  else
    match Scoring.calculate_abuse_score source_ip status (VStr user_agent) (VStr method)
            (VStr resource) with
    | Raise _ => (tbl, [], Response 500 None None)
    | Ok abuse_score =>
        let ip := ScoringFacts.text source_ip in
        let st := ScoringFacts.text status in
        let tbl :=
          update_tracking_data reserved_word (at_short_window now) (at_expiry now)
            (at_long_window now) tbl ip abuse_score ts st method resource in
        let should_alert :=
          check_abuse_thresholds ABUSE_THRESHOLD_5MIN ABUSE_THRESHOLD_HOUR (at_check now)
            tbl ip in
        let alerts := if should_alert then [AbuseAlert ip abuse_score st] else [] in
        (tbl, alerts ++ [AbuseMetrics ip abuse_score st],
         Response 200 (Some abuse_score) (Some should_alert))
    end.

(** A sequence of handler calls, each with its own clock readings. *)
Definition handle_all (calls : list (readings * event)) (tbl : table) : table :=
  fold_left (fun t c => (handler c.1 t c.2).1.1) calls tbl.

End Handler.

(** The two threshold tests of the evaluator, on the record found. *)
Definition over_limits (limit sum_limit : Z) (r : option item) : bool :=
  match r with
  | Some it => (request_count it >? limit) || (abuse_score it >? sum_limit)
  | None => false
  end.

(** A store without reserved words: it accepts every request. *)
Definition no_reserved_word (name : string) : bool := false.

(** One reading for all five places. *)
Definition all_at (now : clock) : readings := Readings now now now now now.

(** *** Windows *)

Lemma round_down_twice (dt : datetime) :
  round_down (round_down dt 5) 60 = round_down dt 60.
Proof.
  unfold round_down. cbn [year month day hour minute tzinfo]. f_equal.
  replace 60 with (5 * 12) at 1 by reflexivity.
  rewrite <- Z.div_div by lia. rewrite Z.div_mul by lia.
  rewrite Z.div_div by lia. reflexivity.
Qed.

Lemma hour_window_of_short_window (now : clock) (ts : timestamp) :
  get_time_window now ts 60 = (round_down (get_time_window now ts 5).1 60, 60).
Proof. destruct ts; cbn; rewrite round_down_twice; reflexivity. Qed.

(** Property X4.  The window label is the floor of the timestamp: the start keeps the
    date, the hour and the offset, has no seconds, and its minute is the
    largest multiple of the window size that is not above the minute of the
    timestamp. *)
Theorem window_is_floor (now : clock) (dt : datetime) (w : Z) :
  0 < w ->
  let start := (get_time_window now (Iso dt) w).1 in
  (get_time_window now (Iso dt) w).2 = w
  /\ minute start <= minute dt < minute start + w
  /\ minute start mod w = 0
  /\ second start = 0 /\ microsecond start = 0
  /\ (year start, month start, day start, hour start, tzinfo start)
     = (year dt, month dt, day dt, hour dt, tzinfo dt)
  /\ get_time_window now (Iso start) w = get_time_window now (Iso dt) w.
Proof.
  intros Hw. cbv zeta. cbn.
  pose proof (Z.mul_div_le (minute dt) w Hw) as Hle.
  pose proof (Z.mul_succ_div_gt (minute dt) w Hw) as Hgt.
  repeat split; try lia.
  - apply Z_mod_mult.
  - unfold round_down. cbn. rewrite Z.div_mul by lia. reflexivity.
Qed.

Lemma window_is_floor_witness :
  let start := (get_time_window clock_0733 (Iso noon_0733) 5).1 in
  minute start <= 7 < minute start + 5 /\ minute start mod 5 = 0.
Proof.
  destruct (window_is_floor clock_0733 noon_0733 5) as (_ & Hm & Hd & _).
  - reflexivity.
  - split; [exact Hm | exact Hd].
Defined.

(** Property X5.  Two timestamps of one five-minute window are in one sixty-minute window;
    a timestamp that does not parse is placed by the clock in both. *)
Theorem same_short_window_same_hour (now1 now2 : clock) (ts1 ts2 : timestamp) :
  get_time_window now1 ts1 5 = get_time_window now2 ts2 5 ->
  get_time_window now1 ts1 60 = get_time_window now2 ts2 60.
Proof.
  intros H. rewrite !hour_window_of_short_window, H. reflexivity.
Qed.

Lemma same_short_window_same_hour_witness :
  get_time_window clock_0107 (Iso noon_0733) 60
  = get_time_window clock_0733 (Unparsable "yesterday") 60.
Proof.
  apply (same_short_window_same_hour clock_0107 clock_0733 (Iso noon_0733)
           (Unparsable "yesterday")).
  vm_compute. reflexivity.
Defined.

(** Property X6.  The four ranges cut the integers at 10, 30 and 60. *)
Theorem score_range_partition (score : Z) :
  (get_abuse_score_range score = "low" <-> score < 10)
  /\ (get_abuse_score_range score = "medium" <-> 10 <= score < 30)
  /\ (get_abuse_score_range score = "high" <-> 30 <= score < 60)
  /\ (get_abuse_score_range score = "critical" <-> 60 <= score).
Proof.
  unfold get_abuse_score_range.
  destruct (Z.ltb_spec score 10); [repeat split; intros; (lia || discriminate || reflexivity)|].
  destruct (Z.ltb_spec score 30); [repeat split; intros; (lia || discriminate || reflexivity)|].
  destruct (Z.ltb_spec score 60); repeat split; intros; (lia || discriminate || reflexivity).
Qed.

(** *** Invariants of the store *)

Lemma event_range_of_small_score (score : Z) :
  score <= 19 ->
  get_abuse_score_range score = "low" \/ get_abuse_score_range score = "medium".
Proof.
  intros H. unfold get_abuse_score_range.
  destruct (Z.ltb_spec score 10); [left; reflexivity|].
  destruct (Z.ltb_spec score 30); [right; reflexivity | lia].
Qed.

Lemma nonempty_union_singleton (X : gset string) (x : string) : X ∪ {[x]} <> ∅.
Proof.
  intros H. assert (x ∈ X ∪ {[x]}) as Hin by (apply elem_of_union_r, elem_of_singleton; reflexivity).
  rewrite H in Hin. exact (not_elem_of_empty x Hin).
Qed.

Lemma short_expression_ok (key : string * window_key) (old : option item) (score : Z)
    (ts : timestamp) (ttl_value : Z) (status : string) :
  key.2.2 = 5 ->
  from_option (record_ok key) True old ->
  0 <= score <= 19 ->
  record_ok key
    (short_window_expression old score ts ttl_value (get_abuse_score_range score) status).
Proof.
  intros Hk Hold Hs. unfold record_ok.
  cbn [short_window_expression request_count abuse_score abuse_score_range status_codes
       methods resources].
  destruct old as [it|]; cbn [from_option] in *.
  - destruct Hold as (H1 & H2 & _ & [(_ & _ & Hm & Hr) | (H60 & _)]); [|lia].
    split; [lia|]. split; [lia|].
    split; [apply event_range_of_small_score; lia|].
    left. repeat split; try assumption. apply nonempty_union_singleton.
  - split; [lia|]. split; [lia|].
    split; [apply event_range_of_small_score; lia|].
    left. repeat split; try assumption. apply nonempty_union_singleton.
Qed.

Lemma long_expression_ok (key : string * window_key) (old : option item) (score : Z)
    (ts : timestamp) (ttl_value : Z) (method resource : string) :
  key.2.2 = 60 ->
  from_option (record_ok key) True old ->
  0 <= score <= 19 ->
  record_ok key
    (long_window_expression old score ts ttl_value (get_abuse_score_range score)
       method resource).
Proof.
  intros Hk Hold Hs. unfold record_ok.
  cbn [long_window_expression request_count abuse_score abuse_score_range status_codes
       methods resources].
  destruct old as [it|]; cbn [from_option] in *.
  - destruct Hold as (H1 & H2 & _ & [(H5 & _) | (_ & Hst & _ & _)]); [lia|].
    split; [lia|]. split; [lia|].
    split; [apply event_range_of_small_score; lia|].
    right. repeat split; try assumption; apply nonempty_union_singleton.
  - split; [lia|]. split; [lia|].
    split; [apply event_range_of_small_score; lia|].
    right. repeat split; try assumption; apply nonempty_union_singleton.
Qed.

Lemma lookup_ok (tbl : table) (k : string * window_key) :
  table_ok tbl -> from_option (record_ok k) True (tbl !! k).
Proof.
  intros Hok. destruct (tbl !! k) as [it|] eqn:E; [|exact I].
  exact (Hok k it E).
Qed.

Lemma window_label (now : clock) (ts : timestamp) (w : Z) :
  (get_time_window now ts w).2 = w.
Proof. destruct ts; reflexivity. Qed.

Lemma update_tracking_data_ok (reserved_word : string -> bool)
    (now_short now_ttl now_long : clock) (tbl : table) (source_ip : string)
    (score : Z) (ts : timestamp) (status method resource : string) :
  table_ok tbl ->
  0 <= score <= 19 ->
  table_ok (update_tracking_data reserved_word now_short now_ttl now_long tbl source_ip
              score ts status method resource).
Proof.
  intros Hok Hs.
  assert (table_ok
            (<[write_key (short_request now_short now_ttl source_ip score ts status) :=
                 written_item
                   (tbl !! write_key (short_request now_short now_ttl source_ip score ts status))
                   (short_request now_short now_ttl source_ip score ts status)]> tbl)) as Hok1.
  { apply map_Forall_insert_2; [|exact Hok].
    cbn [write_key short_request written_item].
    apply short_expression_ok; [apply window_label | apply lookup_ok, Hok | exact Hs]. }
  destruct (update_tracking_data_cases reserved_word now_short now_ttl now_long tbl
              source_ip score ts status method resource) as [-> | [-> | ->]].
  - exact Hok.
  - exact Hok1.
  - apply map_Forall_insert_2; [|exact Hok1].
    cbn [write_key long_request written_item].
    apply long_expression_ok; [apply window_label | apply lookup_ok, Hok | exact Hs].
Qed.

Lemma handler_table (reserved_word : string -> bool) (limit5 limit60 : Z) (now : readings)
    (tbl : table) (ev : event) :
  (handler reserved_word limit5 limit60 now tbl ev).1.1 = tbl
  \/ exists ip status score,
       ev_source_ip ev = Some ip /\ ip <> "" /\ ev_status ev = Some status
       /\ 0 <= score <= 19
       /\ (handler reserved_word limit5 limit60 now tbl ev).1.1 =
          update_tracking_data reserved_word (at_short_window now) (at_expiry now)
            (at_long_window now) tbl ip score
            (default (Iso (utcnow (at_receipt now))) (ev_timestamp ev)) status
            (default "" (ev_method ev)) (default "" (ev_resource ev)).
Proof.
  unfold handler.
  destruct (ev_source_ip ev) as [ip|]; cbn [field truthy negb]; [|left; reflexivity].
  destruct (String.eqb_spec ip "") as [->|Hip]; cbn [negb]; [left; reflexivity|].
  destruct (ev_status ev) as [status|]; cbn [field]; [|left; reflexivity].
  rewrite Scoring.calculate_abuse_score_spec.
  right. exists ip, status, (Scoring.spec_score status (default "" (ev_user_agent ev))
                               (default "" (ev_method ev)) (default "" (ev_resource ev))).
  repeat split; try assumption.
  - unfold Scoring.spec_score. apply Z.le_max_l.
  - apply Scoring.spec_score_le_19.
Qed.

(** Property X7.  Every table the handler builds from the empty table, by
    any events at any times and whatever the store accepts, satisfies the
    record invariant: every record counts at least one request, its sum is at
    most 19 per request, its stored range is low or medium, and its set
    attributes are those of its window size. *)
Theorem handled_tables_are_ok (reserved_word : string -> bool) (limit5 limit60 : Z)
    (calls : list (readings * event)) :
  table_ok (handle_all reserved_word limit5 limit60 calls ∅).
Proof.
  assert (forall tbl, table_ok tbl ->
            table_ok (handle_all reserved_word limit5 limit60 calls tbl)) as H.
  { induction calls as [|[now ev] calls IH]; intros tbl Hok; [exact Hok|].
    cbn [handle_all fold_left]. apply IH. cbn [fst snd].
    destruct (handler_table reserved_word limit5 limit60 now tbl ev)
      as [-> | (ip & status & score & _ & _ & _ & Hs & ->)]; [exact Hok|].
    apply update_tracking_data_ok; assumption. }
  apply H. apply map_Forall_empty.
Qed.

(** *** The evaluator after updates *)

Lemma check_abuse_thresholds_closed_form (limit5 limit60 : Z) (now : clock) (tbl : table)
    (source_ip : string) :
  check_abuse_thresholds limit5 limit60 now tbl source_ip =
  over_limits limit5 50 (tbl !! (source_ip, get_time_window now (Iso (utcnow now)) 5))
  || over_limits limit60 100 (tbl !! (source_ip, get_time_window now (Iso (utcnow now)) 60)).
Proof.
  unfold check_abuse_thresholds, over_limits.
  destruct (tbl !! (source_ip, get_time_window now (Iso (utcnow now)) 5)) as [it5|];
    destruct (tbl !! (source_ip, get_time_window now (Iso (utcnow now)) 60)) as [it60|];
    cbn [orb];
    repeat match goal with
           | |- context [if ?b then _ else _] => destruct b; cbn [orb]
           end; reflexivity.
Qed.

Lemma update_tracking_data_other (reserved_word : string -> bool)
    (now_short now_ttl now_long : clock) (tbl : table) (source_ip : string)
    (score : Z) (ts : timestamp) (status method resource : string)
    (k : string * window_key) :
  k.1 <> source_ip ->
  update_tracking_data reserved_word now_short now_ttl now_long tbl source_ip score ts
    status method resource !! k = tbl !! k.
Proof.
  intros Hne.
  destruct (update_tracking_data_cases reserved_word now_short now_ttl now_long tbl
              source_ip score ts status method resource) as [-> | [-> | ->]];
    [reflexivity| |];
    rewrite ?lookup_insert_ne; try reflexivity;
    cbn [write_key short_request long_request]; intros <-; apply Hne; reflexivity.
Qed.

(** Property X9.  An event of one identity changes no record of another
    identity and no decision about it, whatever the store accepts. *)
Theorem other_identities_are_untouched (reserved_word : string -> bool)
    (limit5 limit60 : Z) (now now_short now_ttl now_long : clock) (tbl : table)
    (source_ip other_ip : string) (score : Z) (ts : timestamp)
    (status method resource : string) :
  source_ip <> other_ip ->
  let tbl' :=
    update_tracking_data reserved_word now_short now_ttl now_long tbl other_ip score ts
      status method resource in
  (forall w : window_key, tbl' !! (source_ip, w) = tbl !! (source_ip, w))
  /\ check_abuse_thresholds limit5 limit60 now tbl' source_ip
     = check_abuse_thresholds limit5 limit60 now tbl source_ip.
Proof.
  intros Hne. cbv zeta.
  assert (forall w : window_key,
            update_tracking_data reserved_word now_short now_ttl now_long tbl other_ip
              score ts status method resource !! (source_ip, w) = tbl !! (source_ip, w)) as H.
  { intros w. apply update_tracking_data_other. exact Hne. }
  split; [exact H|].
  rewrite !check_abuse_thresholds_closed_form, !H. reflexivity.
Qed.

Lemma other_identities_are_untouched_witness :
  check_abuse_thresholds 100 1000 clock_0733
    (update_tracking_data no_reserved_word clock_0733 clock_0733 clock_0733 after_10_events
       "198.51.100.7" 19 (Iso noon_0733) "429" "GET" "/.env") attacker
  = check_abuse_thresholds 100 1000 clock_0733 after_10_events attacker.
Proof.
  apply (other_identities_are_untouched no_reserved_word 100 1000 clock_0733 clock_0733
           clock_0733 clock_0733 after_10_events attacker "198.51.100.7" 19 (Iso noon_0733)
           "429" "GET" "/.env").
  discriminate.
Defined.

Lemma after_10_events_ok : table_ok after_10_events.
Proof.
  unfold after_10_events, table_ok.
  apply map_Forall_insert_2; [|apply map_Forall_insert_2; [|apply map_Forall_empty]].
  - unfold record_ok. cbn. repeat split; try lia; try (right; reflexivity).
    right. repeat split; try reflexivity; intros H;
      apply (f_equal (fun X : gset string => size X)) in H; vm_compute in H; discriminate.
  - unfold record_ok. cbn. repeat split; try lia; try (right; reflexivity).
    left. repeat split; try reflexivity. intros H.
    apply (f_equal (fun X : gset string => size X)) in H. vm_compute in H. discriminate.
Qed.

(** Property X10.  On a table that satisfies the record invariant, an alert means that the
    five-minute record counts more requests than the smaller of its limit and
    2, or the sixty-minute record more than the smaller of its limit and 5:
    the sums 50 and 100 are out of reach of fewer requests. *)
Theorem alert_needs_requests (limit5 limit60 : Z) (now : clock) (tbl : table)
    (source_ip : string) :
  table_ok tbl ->
  check_abuse_thresholds limit5 limit60 now tbl source_ip = true ->
  (exists it, tbl !! (source_ip, get_time_window now (Iso (utcnow now)) 5) = Some it
              /\ request_count it > Z.min limit5 2)
  \/ (exists it, tbl !! (source_ip, get_time_window now (Iso (utcnow now)) 60) = Some it
                 /\ request_count it > Z.min limit60 5).
Proof.
  intros Hok. rewrite check_abuse_thresholds_closed_form, orb_true_iff.
  unfold over_limits.
  intros [H | H]; [left | right].
  - destruct (tbl !! _) as [it|] eqn:E; [|discriminate].
    exists it. split; [reflexivity|].
    destruct (Hok _ _ E) as (H1 & H2 & _).
    apply orb_true_iff in H. rewrite !Z.gtb_gt in H. lia.
  - destruct (tbl !! _) as [it|] eqn:E; [|discriminate].
    exists it. split; [reflexivity|].
    destruct (Hok _ _ E) as (H1 & H2 & _).
    apply orb_true_iff in H. rewrite !Z.gtb_gt in H. lia.
Qed.

Lemma alert_needs_requests_witness :
  (exists it, after_10_events !! (attacker, get_time_window clock_0107 (Iso noon_0107) 5)
              = Some it /\ request_count it > 2)
  \/ (exists it, after_10_events !! (attacker, get_time_window clock_0107 (Iso noon_0107) 60)
                 = Some it /\ request_count it > 5).
Proof.
  apply (alert_needs_requests 100 1000 clock_0107 after_10_events attacker).
  - apply after_10_events_ok.
  - vm_compute. reflexivity.
Defined.

(** *** The handler *)

(** Property X11.  The handler answers 400 exactly when the source IP is
    missing or empty and 500 exactly when the source IP is there and the
    status is missing; in both cases it leaves the table as it was and sends
    nothing.  Every other event is answered with 200. *)
Theorem handler_rejections (reserved_word : string -> bool) (limit5 limit60 : Z)
    (now : readings) (tbl : table) (ev : event) :
  let out := handler reserved_word limit5 limit60 now tbl ev in
  let code := status_code out.2 in
  (code = 400 <-> ev_source_ip ev = None \/ ev_source_ip ev = Some "")
  /\ (code = 500 <->
      (exists ip, ev_source_ip ev = Some ip /\ ip <> "") /\ ev_status ev = None)
  /\ (code = 400 \/ code = 500 \/ code = 200)
  /\ (code <> 200 -> out = (tbl, [], Response code None None)).
Proof.
  cbv zeta. unfold handler.
  destruct (ev_source_ip ev) as [ip|]; cbn [field truthy negb].
  2:{ cbn [snd status_code]. split; [tauto|]. split; [|split; [tauto | reflexivity]].
      split; [discriminate|]. intros [(ip & [=] & _) _]. }
  destruct (String.eqb_spec ip "") as [->|Hip]; cbn [negb].
  { cbn [snd status_code]. split; [tauto|]. split; [|split; [tauto | reflexivity]].
    split; [discriminate|]. intros [(ip & [= <-] & Hne) _]. contradiction. }
  destruct (ev_status ev) as [status|]; cbn [field].
  - rewrite Scoring.calculate_abuse_score_spec. cbn [snd status_code].
    split; [|split; [|split]].
    + split; [discriminate|]. intros [[=] | [= ->]]. contradiction.
    + split; [discriminate|]. intros [_ [=]].
    + right. right. reflexivity.
    + intros H. contradiction.
  - cbn [snd status_code]. split; [|split; [|split]].
    + split; [discriminate|]. intros [[=] | [= ->]]. contradiction.
    + split; [|reflexivity]. intros _. split; [|reflexivity].
      exists ip. split; [reflexivity | assumption].
    + right. left. reflexivity.
    + reflexivity.
Qed.

(** Property X12.  Through the store with the reserved words of DynamoDB, an
    event with a source IP and a status is answered with 200 and a score
    between 0 and 19 and leaves the table as it was: both update requests are
    rejected and the error is swallowed.  The alert is decided on that
    unchanged table; the metrics are published once. *)
Theorem handler_stores_nothing (limit5 limit60 : Z) (now : readings) (tbl : table)
    (ev : event) (ip status : string) :
  ev_source_ip ev = Some ip ->
  ip <> "" ->
  ev_status ev = Some status ->
  let out := handler dynamodb_reserved limit5 limit60 now tbl ev in
  exists score,
    0 <= score <= 19
    /\ out.1.1 = tbl
    /\ out.2 = Response 200 (Some score)
                 (Some (check_abuse_thresholds limit5 limit60 (at_check now) tbl ip))
    /\ out.1.2 =
       (if check_abuse_thresholds limit5 limit60 (at_check now) tbl ip
        then [AbuseAlert ip score status] else [])
       ++ [AbuseMetrics ip score status].
Proof.
  intros Hip Hne Hst. cbv zeta. unfold handler. rewrite Hip, Hst.
  cbn [field truthy]. destruct (String.eqb_spec ip ""); [contradiction|]. cbn [negb].
  rewrite Scoring.calculate_abuse_score_spec.
  rewrite update_tracking_data_rejected. cbn [ScoringFacts.text fst snd].
  eexists. split; [|repeat split].
  split; [unfold Scoring.spec_score; apply Z.le_max_l | apply Scoring.spec_score_le_19].
Qed.

Lemma handler_stores_nothing_witness :
  (handler dynamodb_reserved 100 1000 (all_at clock_0733) after_10_events
     (Event (Some attacker) (Some "404") None None None (Some "/admin/config"))).1.1
  = after_10_events.
Proof.
  destruct (handler_stores_nothing 100 1000 (all_at clock_0733) after_10_events
              (Event (Some attacker) (Some "404") None None None (Some "/admin/config"))
              attacker "404") as (score & _ & Ht & _).
  - reflexivity.
  - discriminate.
  - reflexivity.
  - exact Ht.
Defined.

End DetectorFacts.

(** ** More on the reputation lookup: what the checkers flag *)

Module ReputationFacts.

Import Reputation.







End ReputationFacts.

From stdpp Require Import sorting pretty.

Local Open Scope string_scope.
Local Open Scope list_scope.
Local Open Scope Z_scope.

(** ** More on the response handler: identification, accounting, notification *)

Module ResponseFacts.

Import Response.
Import Detector.

(** An item of a query response: its two key attributes and the rest. *)
Record tracked : Type := Tracked {
  ip_address : string;
  time_window : Detector.window_key;
  attributes : Detector.item
}.

(** [l.sort(key=..., reverse=True)]: descending by key; entries of equal key
    keep their order. *)
Fixpoint insert_desc {A : Type} (key : A -> Z) (x : A) (l : list A) : list A :=
  match l with
  | [] => [x]
  | y :: t => if key y <=? key x then x :: y :: t else y :: insert_desc key x t
  end.

Definition sort_desc {A : Type} (key : A -> Z) (l : list A) : list A :=
  foldr (insert_desc key) [] l.

(** [sep.join(l)] on a list of strings. *)
Fixpoint join (sep : string) (l : list string) : string :=
  match l with
  | [] => ""
  | [x] => x
  | x :: t => x +:+ sep +:+ join sep t
  end.

(** [sep.join(l)] on a list of dictionaries: [TypeError] on the first
    element. *)
Definition join_infos (sep : string) (l : list ip_info) : result string :=
  match l with
  | [] => Ok ""
  | _ :: _ => Raise TypeError
  end.

Definition nl : string := String (ascii_of_nat 10) "".

Section Identification.

(** The text stored under [last_seen]. *)
Variable timestamp_text : Detector.timestamp -> string.

(** The dictionary the identification functions build from an item. *)
Definition to_info (it : tracked) : ip_info :=
  IpInfo (ip_address it)
    (Detector.request_count (attributes it))
    (Detector.abuse_score (attributes it))
    (timestamp_text (Detector.last_seen (attributes it))).

(** [identify_high_volume_ips], given the response of its index query for
    the range [high]; [None] stands for a query that raised. *)
Definition identify_high_volume_ips (response : option (list tracked)) : list ip_info :=
  match response with
  | None => []
  | Some items =>
      let high_volume_ips := to_info <$> items in
      let high_volume_ips := sort_desc info_abuse_score high_volume_ips in
      take 10 high_volume_ips
  end.

(** The filter of [identify_spam_creators]. *)
Definition creates_by_post (it : tracked) : bool :=
  bool_decide ("POST" ∈ Detector.methods (attributes it))
  && existsb (contains "/create") (elements (Detector.resources (attributes it))).

(** [identify_spam_creators], given the response of its index query for the
    range [critical]. *)
Definition identify_spam_creators (response : option (list tracked)) : list ip_info :=
  match response with
  | None => []
  | Some items =>
      let spam_creators := to_info <$> filter (fun it => creates_by_post it = true) items in
      let spam_creators := sort_desc info_abuse_score spam_creators in
      take 5 spam_creators
  end.

End Identification.

(** What [sns.publish] is called with. *)
Record notification : Type := Notification {
  subject : string;
  message : string
}.

Section Notification.

Variable SERVICE_NAME : string.
Variable ENVIRONMENT : string.
(** [ENVIRONMENT.upper()]. *)
Variable ENVIRONMENT_UPPER : string.

(** The lines of the [for action in actions] loop. *)
Fixpoint action_lines (actions : list action) (message : string) : string :=
  match actions with
  | [] => message
  | a :: rest =>
      action_lines rest
        (message +:+ "- " +:+ a_type a +:+ " (severity: "
           +:+ default "unknown" (severity a) +:+ ")" +:+ nl)
  end.

(** [send_response_notification]; [timestamp] is the ISO text of the time of
    the call.  [None] when the body raised before [sns.publish]: the
    [except] logs the error and nothing is published. *)
Definition send_response_notification (timestamp alarm_name alarm_reason : string)
    (actions : list action) (res : results) : option notification :=
  let message :=
    nl +:+ "AUTOMATED ABUSE RESPONSE COMPLETED" +:+ nl +:+ nl
    +:+ "Service: " +:+ SERVICE_NAME +:+ nl
    +:+ "Environment: " +:+ ENVIRONMENT +:+ nl
    +:+ "Alarm: " +:+ alarm_name +:+ nl
    +:+ "Reason: " +:+ alarm_reason +:+ nl
    +:+ "Timestamp: " +:+ timestamp +:+ nl +:+ nl
    +:+ "ACTIONS TAKEN:" +:+ nl in
  let message := action_lines actions message in
  let message :=
    message +:+ nl +:+ "RESULTS:" +:+ nl
    +:+ "- Successful actions: " +:+ pretty (length (successful_actions res)) +:+ nl
    +:+ "- Failed actions: " +:+ pretty (length (failed_actions res)) +:+ nl
    +:+ "- IPs blocked: " +:+ pretty (length (ips_blocked res)) +:+ nl in
  let blocked_line :=
    if nonempty (ips_blocked res)
    then joined ← join_infos ", " (ips_blocked res);
         Ok (message +:+ nl +:+ "Blocked IPs: " +:+ joined)
    else Ok message in
  match blocked_line with
  | Raise _ => None
  | Ok message =>
      let message :=
        match high_volume_ips res with
        | Some ips => message +:+ nl +:+ "High volume IPs identified: " +:+ pretty (length ips)
        | None => message
        end in
      let message :=
        match spam_creator_ips res with
        | Some ips => message +:+ nl +:+ "Spam creator IPs identified: " +:+ pretty (length ips)
        | None => message
        end in
      let message :=
        match scanner_ips res with
        | Some ips => message +:+ nl +:+ "Scanner IPs identified: " +:+ pretty (length ips)
        | None => message
        end in
      let message :=
        if nonempty (failed_actions res)
        then message +:+ nl +:+ "Failed actions: " +:+ join ", " (failed_actions res)
        else message in
      let message :=
        message +:+ nl +:+ nl
        +:+ "This is an automated response from the abuse mitigation system." +:+ nl
        +:+ "Please review the actions taken and investigate if further manual intervention is needed."
        +:+ nl in
      Some (Notification
              ("[" +:+ ENVIRONMENT_UPPER +:+ "] Automated Abuse Response - " +:+ alarm_name)
              message)
  end.

End Notification.

(** The items of a response are records of the table. *)
Definition read_from (tbl : gmap (string * Detector.window_key) Detector.item)
    (items : list tracked) : Prop :=
  Forall (fun it => tbl !! (ip_address it, time_window it) = Some (attributes it)) items.

(** A sixty-minute record of three POST requests to [/create] by one
    identity. *)
Definition creator_record : tracked :=
  Tracked attacker (get_time_window clock_0107 (Iso noon_0107) 60)
    (Item 3 3 (Iso noon_0107) 1704196867 "low" ∅ {["POST"]} {["/create"]}).

(** Descending by accumulated score. *)
Definition by_score (a b : ip_info) : Prop := info_abuse_score b <= info_abuse_score a.

(** *** Sorting *)

Lemma insert_desc_perm {A : Type} (key : A -> Z) (x : A) (l : list A) :
  insert_desc key x l ≡ₚ x :: l.
Proof.
  induction l as [|y t IH]; cbn [insert_desc]; [reflexivity|].
  destruct (key y <=? key x); [reflexivity|].
  rewrite IH. apply perm_swap.
Qed.

Lemma sort_desc_perm {A : Type} (key : A -> Z) (l : list A) : sort_desc key l ≡ₚ l.
Proof.
  induction l as [|x l IH]; [reflexivity|].
  cbn [sort_desc foldr]. fold (sort_desc key l).
  rewrite insert_desc_perm, IH. reflexivity.
Qed.

Lemma insert_desc_sorted {A : Type} (key : A -> Z) (x : A) (l : list A) :
  StronglySorted (fun a b => key b <= key a) l ->
  StronglySorted (fun a b => key b <= key a) (insert_desc key x l).
Proof.
  induction 1 as [|y t Hs IH Hall]; cbn [insert_desc].
  - repeat constructor.
  - destruct (Z.leb_spec (key y) (key x)) as [Hle|Hgt].
    + constructor; [constructor; assumption|].
      constructor; [exact Hle|].
      eapply Forall_impl; [exact Hall|]. cbn. intros z Hz. lia.
    + constructor; [exact IH|].
      rewrite insert_desc_perm. constructor; [lia | exact Hall].
Qed.

Lemma sort_desc_sorted {A : Type} (key : A -> Z) (l : list A) :
  StronglySorted (fun a b => key b <= key a) (sort_desc key l).
Proof.
  induction l as [|x l IH]; [constructor|].
  cbn [sort_desc foldr]. apply insert_desc_sorted. exact IH.
Qed.

(** The first [n] entries of a descending sort: they are sorted, what is
    left out completes them to a permutation, and nothing left out ranks above
    an entry kept. *)
Lemma top_of_sort {A : Type} (key : A -> Z) (n : nat) (l : list A) :
  let res := take n (sort_desc key l) in
  length res = min n (length l)
  /\ StronglySorted (fun a b => key b <= key a) res
  /\ exists rest, res ++ rest ≡ₚ l
       /\ Forall (fun a => Forall (fun b => key b <= key a) rest) res.
Proof.
  cbv zeta. pose proof (sort_desc_sorted key l) as Hs.
  rewrite <- (take_drop n (sort_desc key l)) in Hs.
  split. { rewrite length_take, (Permutation_length (sort_desc_perm key l)). reflexivity. }
  split. { exact (StronglySorted_app_1_l _ _ _ Hs). }
  exists (drop n (sort_desc key l)). split.
  - rewrite take_drop. apply sort_desc_perm.
  - apply Forall_forall. intros a Ha. apply Forall_forall. intros b Hb.
    exact (StronglySorted_app_1_elem_of _ _ _ a b Hs Ha Hb).
Qed.

(** *** Identification *)

Section IdentificationFacts.

Variable timestamp_text : Detector.timestamp -> string.

(** Property X15.  [identify_high_volume_ips] returns the ten highest sums of the response,
    highest first: as many entries as the response has, up to ten; what it
    leaves out completes it to the whole response and ranks no higher than
    any entry returned.  A failed query gives the empty list. *)
Theorem high_volume_ranking (items : list tracked) :
  let res := identify_high_volume_ips timestamp_text (Some items) in
  length res = min 10 (length items)
  /\ StronglySorted by_score res
  /\ (exists rest, res ++ rest ≡ₚ (to_info timestamp_text <$> items)
        /\ Forall (fun a => Forall (by_score a) rest) res)
  /\ identify_high_volume_ips timestamp_text None = [].
Proof.
  cbv zeta. unfold identify_high_volume_ips.
  destruct (top_of_sort info_abuse_score 10 (to_info timestamp_text <$> items))
    as (Hlen & Hsorted & rest & Hperm & Htop).
  rewrite length_fmap in Hlen.
  split; [exact Hlen|]. split; [exact Hsorted|].
  split; [|reflexivity]. exists rest. split; [exact Hperm | exact Htop].
Qed.

Lemma spam_creators_from (items : list tracked) :
  Forall (fun x => exists it, it ∈ items /\ x = to_info timestamp_text it
                      /\ "POST" ∈ Detector.methods (attributes it)
                      /\ exists r, r ∈ Detector.resources (attributes it)
                                   /\ contains "/create" r = true)
    (identify_spam_creators timestamp_text (Some items)).
Proof.
  unfold identify_spam_creators.
  destruct (top_of_sort info_abuse_score 5
              (to_info timestamp_text <$> filter (fun it => creates_by_post it = true) items))
    as (_ & _ & rest & Hperm & _).
  apply Forall_forall. intros x Hx.
  assert (x ∈ to_info timestamp_text <$> filter (fun it => creates_by_post it = true) items)
    as Hin.
  { rewrite <- Hperm. apply elem_of_app. left. exact Hx. }
  apply list_elem_of_fmap in Hin. destruct Hin as (it & -> & Hit).
  apply list_elem_of_filter in Hit. destruct Hit as [Hq Hit].
  exists it. split; [exact Hit|]. split; [reflexivity|].
  unfold creates_by_post in Hq. apply andb_true_iff in Hq. destruct Hq as [Hpost Hres].
  split; [apply bool_decide_eq_true in Hpost; exact Hpost|].
  apply existsb_exists in Hres. destruct Hres as (r & Hr & Hc).
  exists r. split; [|exact Hc].
  apply elem_of_elements, list_elem_of_In. exact Hr.
Qed.

(** Property X16.  [identify_spam_creators] returns at most five entries, highest sum
    first, and each comes from an item of the response whose methods hold
    POST and one of whose resources contains [/create]. *)
Theorem spam_creators_qualify (items : list tracked) :
  let res := identify_spam_creators timestamp_text (Some items) in
  (length res <= 5)%nat
  /\ StronglySorted by_score res
  /\ Forall (fun x => exists it, it ∈ items /\ x = to_info timestamp_text it
                      /\ "POST" ∈ Detector.methods (attributes it)
                      /\ exists r, r ∈ Detector.resources (attributes it)
                                   /\ contains "/create" r = true) res
  /\ identify_spam_creators timestamp_text None = [].
Proof.
  cbv zeta. split; [|split; [|split; [apply spam_creators_from | reflexivity]]].
  - unfold identify_spam_creators. rewrite length_take. lia.
  - unfold identify_spam_creators.
    exact (proj1 (proj2 (top_of_sort info_abuse_score 5
             (to_info timestamp_text <$> filter (fun it => creates_by_post it = true) items)))).
Qed.

(** Property X17.  On a table that satisfies the record invariant of the detector, the index
    holds no record in the range [high] or [critical], so both identification
    functions that query it for these ranges return the empty list. *)
Theorem index_queries_find_nothing
    (tbl : gmap (string * Detector.window_key) Detector.item)
    (range : string) (items : list tracked) :
  DetectorFacts.table_ok tbl ->
  range = "high" \/ range = "critical" ->
  read_from tbl items ->
  Forall (fun it => Detector.abuse_score_range (attributes it) = range) items ->
  items = []
  /\ identify_high_volume_ips timestamp_text (Some items) = []
  /\ identify_spam_creators timestamp_text (Some items) = [].
Proof.
  intros Hok Hrange Hread Hkey.
  assert (items = []) as ->.
  { destruct items as [|it items]; [reflexivity|]. exfalso.
    apply Forall_cons in Hread. destruct Hread as [Hit _].
    apply Forall_cons in Hkey. destruct Hkey as [Hr _].
    destruct (Hok _ _ Hit) as (_ & _ & Hlow & _).
    destruct Hrange as [-> | ->], Hlow as [Hl | Hl]; congruence. }
  repeat split.
Qed.

End IdentificationFacts.

Lemma index_queries_find_nothing_witness :
  identify_spam_creators (fun _ => "") (Some []) = [].
Proof.
  apply (index_queries_find_nothing (fun _ => "") after_10_events "critical" []).
  - apply DetectorFacts.after_10_events_ok.
  - right. reflexivity.
  - constructor.
  - constructor.
Defined.

Example creator_is_identified :
  identify_spam_creators (fun _ => "") (Some [creator_record]) = [IpInfo attacker 3 3 ""].
Proof. vm_compute. reflexivity. Qed.

(** *** The executor on any list of actions *)

Section ExecutorFacts.

Variable WAF_WEB_ACL_NAME : string.
Variable high_volume_found : list ip_info.
Variable spam_creators_found : list ip_info.
Variable scanners_found : list ip_info.

Local Abbreviation exec :=
  (execute_action WAF_WEB_ACL_NAME high_volume_found spam_creators_found scanners_found).
Local Abbreviation run :=
  (run_actions WAF_WEB_ACL_NAME high_volume_found spam_creators_found scanners_found).
Local Abbreviation execute :=
  (execute_response_actions WAF_WEB_ACL_NAME high_volume_found spam_creators_found
     scanners_found).

(** What the run's context can hold: the identification entries are absent
    or the lists found, and every blocked entry is one of the first five spam
    creators or scanners, blocked through a configured web ACL. *)
Definition blockable (x : ip_info) : Prop :=
  WAF_WEB_ACL_NAME <> ""
  /\ (x ∈ take 5 spam_creators_found \/ x ∈ take 5 scanners_found).

Definition context_ok (r : results) : Prop :=
  (spam_creator_ips r = None \/ spam_creator_ips r = Some spam_creators_found)
  /\ (scanner_ips r = None \/ scanner_ips r = Some scanners_found)
  /\ Forall blockable (ips_blocked r).

(** One action adds its type to one of the two lists, or to neither. *)
Lemma execute_action_lists (r : results) (a : action) :
  (successful_actions (exec r a) = successful_actions r
   /\ failed_actions (exec r a) = failed_actions r)
  \/ (successful_actions (exec r a) = successful_actions r ++ [a_type a]
      /\ failed_actions (exec r a) = failed_actions r)
  \/ (successful_actions (exec r a) = successful_actions r
      /\ failed_actions (exec r a) = failed_actions r ++ [a_type a]).
Proof.
  unfold execute_action, block_ips_in_waf, apply_temporary_rate_limit.
  repeat match goal with
         | |- context [if ?b then _ else _] => destruct b
         end; cbn; tauto.
Qed.

Lemma run_actions_lists (actions : list action) (r : results) :
  exists s f,
    successful_actions (run actions r) = successful_actions r ++ s
    /\ failed_actions (run actions r) = failed_actions r ++ f
    /\ s `sublist_of` (a_type <$> actions)
    /\ f `sublist_of` (a_type <$> actions)
    /\ (length s + length f <= length actions)%nat.
Proof.
  revert r. induction actions as [|a actions IH]; intros r.
  - exists [], []. cbn. rewrite !app_nil_r. repeat split; try constructor.
  - cbn [run_actions fold_left]. fold (run actions (exec r a)).
    destruct (IH (exec r a)) as (s & f & Hs & Hf & Hss & Hfs & Hlen).
    rewrite Hs, Hf. rewrite fmap_cons.
    destruct (execute_action_lists r a) as [[-> ->] | [[-> ->] | [-> ->]]].
    + exists s, f. repeat split; try reflexivity.
      * apply sublist_cons. exact Hss.
      * apply sublist_cons. exact Hfs.
      * cbn. lia.
    + exists (a_type a :: s), f. rewrite <- !app_assoc. repeat split; try reflexivity.
      * apply sublist_skip. exact Hss.
      * apply sublist_cons. exact Hfs.
      * cbn. lia.
    + exists s, (a_type a :: f). rewrite <- !app_assoc. repeat split; try reflexivity.
      * apply sublist_cons. exact Hss.
      * apply sublist_skip. exact Hfs.
      * cbn. lia.
Qed.

(** Property X19.  Every action of the list is attempted once: the successful and the
    failed action types are two sublists of the planned types, in the planned
    order, and together no longer than the plan (a skipped action is in
    neither). *)
Theorem every_action_is_accounted_once (actions : list action) :
  let res := execute actions in
  successful_actions res `sublist_of` (a_type <$> actions)
  /\ failed_actions res `sublist_of` (a_type <$> actions)
  /\ (length (successful_actions res) + length (failed_actions res) <= length actions)%nat.
Proof.
  cbv zeta. unfold execute_response_actions.
  destruct (run_actions_lists actions initial_results) as (s & f & -> & -> & Hs & Hf & Hlen).
  cbn [initial_results successful_actions failed_actions app]. auto.
Qed.

Lemma configured_true : configured WAF_WEB_ACL_NAME = true -> WAF_WEB_ACL_NAME <> "".
Proof.
  unfold configured. destruct (String.eqb_spec WAF_WEB_ACL_NAME ""); [discriminate|].
  intros _. assumption.
Qed.

Lemma targets_blockable (r : results) :
  context_ok r -> configured WAF_WEB_ACL_NAME = true -> Forall blockable (ips_to_block r).
Proof.
  intros (Hsp & Hsc & _) Hc. apply configured_true in Hc.
  apply Forall_forall. intros x Hx. split; [exact Hc|].
  unfold ips_to_block in Hx.
  destruct Hsp as [Hsp | Hsp], Hsc as [Hsc | Hsc]; rewrite Hsp, Hsc in Hx; cbn [app] in Hx.
  - inversion Hx.
  - right. exact Hx.
  - left. exact Hx.
  - apply elem_of_app in Hx. exact Hx.
Qed.

Lemma execute_action_context (r : results) (a : action) :
  context_ok r -> context_ok (exec r a).
Proof.
  intros Hok.
  destruct (one_of (a_type a) ["block_suspicious_ips"; "block_scanner_ips"]) eqn:Hblock.
  - rewrite (Response.execute_block_action _ _ _ _ r a Hblock).
    destruct (nonempty (ips_to_block r)); cbn [andb]; [|exact Hok].
    destruct (configured WAF_WEB_ACL_NAME) eqn:Hc; [|exact Hok].
    destruct Hok as (Hsp & Hsc & Hbl).
    split; [exact Hsp|]. split; [exact Hsc|].
    cbn [add_successful extend_ips_blocked ips_blocked].
    apply Forall_app. split; [exact Hbl|].
    apply Forall_take, targets_blockable; [|exact Hc].
    split; [exact Hsp|]. split; [exact Hsc | exact Hbl].
  - destruct Hok as (Hsp & Hsc & Hbl).
    unfold execute_action. rewrite Hblock.
    unfold apply_temporary_rate_limit.
    repeat match goal with
           | |- context [if ?b then _ else _] => destruct b
           end;
      (split; [|split]); cbn; auto.
Qed.

Lemma run_actions_context (actions : list action) (r : results) :
  context_ok r -> context_ok (run actions r).
Proof.
  revert r. induction actions as [|a actions IH]; intros r Hok; [exact Hok|].
  cbn [run_actions fold_left]. apply IH, execute_action_context, Hok.
Qed.

(** Property X20.  Whatever the list of actions, every blocked entry is one of the first
    five spam creators or of the first five scanners found, and nothing is
    blocked without a configured web ACL: the high-volume identities are read
    by no blocking action. *)
Theorem only_identified_addresses_are_blocked (actions : list action) :
  Forall blockable (ips_blocked (execute actions))
  /\ (WAF_WEB_ACL_NAME = "" -> ips_blocked (execute actions) = []).
Proof.
  assert (context_ok (execute actions)) as (_ & _ & H).
  { apply run_actions_context.
    split; [left; reflexivity|]. split; [left; reflexivity | constructor]. }
  split; [exact H|].
  intros Hwaf. destruct (ips_blocked (execute actions)) as [|x l]; [reflexivity|].
  apply Forall_cons in H. destruct H as [[Hne _] _]. contradiction.
Qed.

(** Property X21.  The planner reads the alarm name in lower case and nothing else: the
    letter case of the name and the alarm reason do not change the plan, and
    a name that contains [high-volume] gets the high-volume plan whatever
    else it contains. *)
Theorem plan_depends_on_lowered_name (alarm_name reason1 reason2 : string) :
  determine_response_actions (VStr alarm_name) reason1
  = determine_response_actions (VStr (lower alarm_name)) reason2
  /\ (if contains "high-volume" (lower alarm_name)
      then determine_response_actions (VStr alarm_name) reason1 = high_volume_plan
      else determine_response_actions (VStr alarm_name) reason1 <> high_volume_plan).
Proof.
  unfold determine_response_actions. cbn [str_receiver].
  rewrite ScoringFacts.lower_idem. split; [reflexivity|].
  destruct (contains "high-volume" (lower alarm_name)); [reflexivity|].
  destruct (contains "url-creation" (lower alarm_name)); [discriminate|].
  destruct (contains "custom-abuse" (lower alarm_name)); [|discriminate].
  destruct (contains "scanner" (lower alarm_name)); [discriminate|].
  destruct (contains "suspicious_patterns" (lower alarm_name)); discriminate.
Qed.

(** *** Planned runs *)

Ltac run_plan :=
  unfold execute_response_actions, run_actions, high_volume_plan, url_creation_plan,
    scanner_plan, suspicious_patterns_plan;
  cbn [fold_left]; unfold execute_action, block_ips_in_waf, apply_temporary_rate_limit;
  cbn -[take configured nonempty];
  repeat match goal with
         | |- context [configured ?w] => destruct (configured w)
         | |- context [nonempty ?l] => destruct (nonempty l)
         end;
  cbn -[take]; try reflexivity.

Lemma planned_failures :
  failed_actions (execute high_volume_plan) = []
  /\ failed_actions (execute url_creation_plan) = []
  /\ failed_actions (execute scanner_plan) = []
  /\ failed_actions (execute suspicious_patterns_plan) = ["analyze_suspicious_patterns"]
  /\ failed_actions (execute [default_action]) = [].
Proof. repeat split; run_plan. Qed.

Lemma planned_blocks :
  ips_blocked (execute high_volume_plan) = []
  /\ ips_blocked (execute url_creation_plan)
     = (if configured WAF_WEB_ACL_NAME then take 5 spam_creators_found else [])
  /\ ips_blocked (execute scanner_plan)
     = (if configured WAF_WEB_ACL_NAME then take 5 scanners_found else [])
  /\ ips_blocked (execute suspicious_patterns_plan) = []
  /\ ips_blocked (execute [default_action]) = [].
Proof.
  repeat split; try (run_plan; fail).
  - unfold execute_response_actions, run_actions, url_creation_plan.
    cbn [fold_left]. unfold execute_action, block_ips_in_waf.
    cbn -[take configured nonempty].
    destruct (configured WAF_WEB_ACL_NAME); cbn -[take].
    + destruct (take 5 spam_creators_found) eqn:E; cbn -[take]; [reflexivity|].
      rewrite <- E, take_take. reflexivity.
    + rewrite andb_false_r. reflexivity.
  - unfold execute_response_actions, run_actions, scanner_plan.
    cbn [fold_left]. unfold execute_action, block_ips_in_waf.
    cbn -[take configured nonempty].
    destruct (configured WAF_WEB_ACL_NAME); cbn -[take].
    + destruct (take 5 scanners_found) eqn:E; cbn -[take]; [reflexivity|].
      rewrite <- E, take_take. reflexivity.
    + rewrite andb_false_r. reflexivity.
Qed.

(** Property X22.  In the run of a planned list the only action that fails is
    [analyze_suspicious_patterns], a type the executor does not know: the
    plan of the suspicious-patterns alarm records it as failed every time,
    and no other plan records any failure. *)
Theorem planned_runs_fail_only_on_analysis (alarm_name alarm_reason : string) :
  let plan := determine_response_actions (VStr alarm_name) alarm_reason in
  failed_actions (execute plan) =
  if one_of "analyze_suspicious_patterns" (a_type <$> plan)
  then ["analyze_suspicious_patterns"] else [].
Proof.
  cbv zeta.
  destruct planned_failures as (H1 & H2 & H3 & H4 & H5).
  destruct (plan_cases alarm_name alarm_reason) as [E|[E|[E|[E|[E _]]]]]; rewrite E.
  - rewrite H1. reflexivity.
  - rewrite H2. reflexivity.
  - rewrite H3. reflexivity.
  - rewrite H4. reflexivity.
  - rewrite H5. reflexivity.
Qed.

Variable SERVICE_NAME : string.
Variable ENVIRONMENT : string.
Variable ENVIRONMENT_UPPER : string.

Local Abbreviation notify :=
  (send_response_notification SERVICE_NAME ENVIRONMENT ENVIRONMENT_UPPER).

Lemma notification_lost_iff (timestamp alarm_name alarm_reason : string)
    (actions : list action) (res : results) :
  notify timestamp alarm_name alarm_reason actions res = None <-> ips_blocked res <> [].
Proof.
  unfold send_response_notification.
  destruct (ips_blocked res) as [|x l]; cbn [nonempty join_infos mbind result_bind].
  - split; [discriminate | congruence].
  - split; [discriminate | reflexivity].
Qed.

Lemma take_5_nil (l : list ip_info) : take 5 l = [] <-> l = [].
Proof. destruct l; cbn; split; congruence. Qed.

(** Property X23.  The notification of a planned run is not published exactly when the run
    blocked an address: joining the blocked entries, which are dictionaries,
    raises before the publish call.  That is the case exactly when the web
    ACL is configured and the url-creation plan found a spam creator or the
    scanner plan found a scanner. *)
Theorem blocking_run_sends_no_notification (timestamp alarm_name alarm_reason : string) :
  let plan := determine_response_actions (VStr alarm_name) alarm_reason in
  let res := execute plan in
  (notify timestamp alarm_name alarm_reason plan res = None <-> ips_blocked res <> [])
  /\ (ips_blocked res <> [] <->
      WAF_WEB_ACL_NAME <> ""
      /\ ((plan = url_creation_plan /\ spam_creators_found <> [])
          \/ (plan = scanner_plan /\ scanners_found <> []))).
Proof.
  cbv zeta. split; [apply notification_lost_iff|].
  destruct planned_blocks as (H1 & H2 & H3 & H4 & H5).
  assert (configured WAF_WEB_ACL_NAME = true <-> WAF_WEB_ACL_NAME <> "") as Hc.
  { unfold configured. destruct (String.eqb_spec WAF_WEB_ACL_NAME ""); cbn; split;
      congruence. }
  destruct (plan_cases alarm_name alarm_reason) as [E|[E|[E|[E|[E _]]]]]; rewrite E.
  - rewrite H1. split; [congruence|]. intros (_ & [[[=] _] | [[=] _]]).
  - rewrite H2. destruct (configured WAF_WEB_ACL_NAME).
    + rewrite take_5_nil. split.
      * intros Hne. split; [apply Hc; reflexivity|]. left. split; [reflexivity | exact Hne].
      * intros (_ & [[_ Hne] | [[=] _]]). exact Hne.
    + split; [congruence|]. intros (Hw & _). apply Hc in Hw. discriminate.
  - rewrite H3. destruct (configured WAF_WEB_ACL_NAME).
    + rewrite take_5_nil. split.
      * intros Hne. split; [apply Hc; reflexivity|]. right. split; [reflexivity | exact Hne].
      * intros (_ & [[[=] _] | [_ Hne]]). exact Hne.
    + split; [congruence|]. intros (Hw & _). apply Hc in Hw. discriminate.
  - rewrite H4. split; [congruence|]. intros (_ & [[[=] _] | [[=] _]]).
  - rewrite H5. split; [congruence|]. intros (_ & [[[=] _] | [[=] _]]).
Qed.

End ExecutorFacts.

End ResponseFacts.
